(** * Dremio extractors: query construction and row grouping

    A shallow embedding of
    - [databuilder/extractor/dremio_odbc_sql_query_builder.py]
      ([DremioOdbcSqlQueryBuilder.get_sql_statement]) and
    - [databuilder/extractor/dremio_table_column_extractor.py]
      ([DremioTableColumnExtractor.init], [extract], [_get_extract_iter],
      [_get_table_key]).

    Python strings are modelled as [string], one [ascii] per code point
    below 256; dictionaries with string keys as [gmap string _]; raised
    exceptions as the [Raise] case of [result]. *)

From Stdlib Require Import Ascii String.
From stdpp Require Import base option list strings gmap.

Open Scope string_scope.
Open Scope list_scope.

(** ** The enumerations of [DremioOdbcSqlQueryBuilder] *)

(** The supported SQL statements. *)
Inductive SqlStatement : Type :=
| TABLE_OWNER_INIT
| APPLICATION.

(** The options of the SQL WHERE statement. *)
Inductive SqlWhereStatement : Type :=
| EXCLUDE_PDS_TABLES
| EXCLUDE_SYS_TABLES
| EXCLUDE_PDS_AND_SYS_TABLES
| INCLUDE_ALL.

(** ** Python values and exceptions *)

Module Py.

(** The Python objects a caller or the database driver hands to the
    modelled code: [None], bools, ints, strings, members of the two
    enumerations and tuples of these, all of them hashable. Lists and
    other mutable objects are not among them. Members of the two
    enumerations are equal only to themselves. *)
#[warnings="-register-all"] Inductive pyval : Type :=
| PyNone
| PyBool (b : bool)
| PyInt (z : Z)
| PyStr (s : string)
| PySqlStatement (e : SqlStatement)
| PySqlWhereStatement (e : SqlWhereStatement)
| PyTuple (items : list pyval).

(** Truth value of an object, as [if x:] tests it. *)
Definition truthy (v : pyval) : bool :=
  match v with
  | PyNone => false
  | PyBool b => b
  | PyInt z => negb (z =? 0)%Z
  | PyStr s => negb (String.eqb s EmptyString)
  | PySqlStatement _ | PySqlWhereStatement _ => true
  | PyTuple items => negb (Nat.eqb (length items) 0)
  end.

(** [v == s] for a string [s]: only an equal string is equal to it. *)
Definition eq_str (v : pyval) (s : string) : bool :=
  match v with
  | PyStr s' => String.eqb s' s
  | _ => false
  end.

(** The exceptions the modelled code can raise. [KeyError] carries the
    missing key. *)
Inductive exn : Type :=
| KeyError (key : pyval)
| ValueError (msg : string)
| TypeError (msg : string)
| UnboundLocalError (msg : string).

Inductive result (A : Type) : Type :=
| Ok (a : A)
| Raise (e : exn).
Arguments Ok {A} a.
Arguments Raise {A} e.

Definition bind {A B} (m : result A) (k : A -> result B) : result B :=
  match m with
  | Ok a => k a
  | Raise e => Raise e
  end.

Definition is_KeyError {A} (m : result A) : Prop :=
  match m with
  | Raise (KeyError _) => True
  | _ => False
  end.

Definition is_Ok {A} (m : result A) : Prop :=
  match m with
  | Ok _ => True
  | Raise _ => False
  end.

(** The double quote, which the SQL templates contain. *)
Definition dq : string := String (ascii_of_nat 34) EmptyString.

(** One line feed. *)
Definition nl : string := String (ascii_of_nat 10) EmptyString.

(** *** [str.split]

    [s.split(sep)] for a non-empty [sep] cuts [s] at every occurrence of
    [sep] found scanning left to right; [skip] counts the characters of a
    separator just matched that are still to be dropped, [cur] is the
    piece being accumulated. *)
Fixpoint split_sep (sep : string) (skip : nat) (cur s : string)
  : list string :=
  match s with
  | EmptyString => [cur]
  | String c s' =>
      match skip with
      | S k => split_sep sep k cur s'
      | O =>
          if String.prefix sep s
          then cur :: split_sep sep (String.length sep - 1) EmptyString s'
          else split_sep sep 0 (cur +:+ String c EmptyString) s'
      end
  end.

(** [str.isspace] on the code points below 256: TAB..CR, FS..US, SPACE,
    NEL and NBSP. *)
Definition isspace (c : ascii) : bool :=
  let n := nat_of_ascii c in
  (((9 <=? n) && (n <=? 13)) || ((28 <=? n) && (n <=? 32))
   || (n =? 133) || (n =? 160))%nat.

(** [s.split(None)]: runs of whitespace separate the pieces and empty
    pieces are dropped. *)
Fixpoint split_ws (cur s : string) : list string :=
  match s with
  | EmptyString => if decide (cur = EmptyString) then [] else [cur]
  | String c s' =>
      if isspace c
      then (if decide (cur = EmptyString) then split_ws EmptyString s'
            else cur :: split_ws EmptyString s')
      else split_ws (cur +:+ String c EmptyString) s'
  end.

(** [s.split(sep)] with [sep] a string or [None]; an empty separator
    raises [ValueError]. *)
Definition split (sep : option string) (s : string) : result (list string) :=
  match sep with
  | None => Ok (split_ws EmptyString s)
  | Some EmptyString => Raise (ValueError "empty separator")
  | Some sp => Ok (split_sep sp 0 EmptyString s)
  end.

(** *** [str.format] with keyword arguments

    A format string is a sequence of literal text and replacement fields
    [{name}]; [{{] and [}}] stand for single braces. *)
Inductive segment : Type :=
| Lit (text : string)
| Field (name : string).

(** Parser state: outside a field with the literal read so far, or inside
    a field with the name read so far. *)
Inductive fstate : Type :=
| InLit (text : string)
| InField (name : string).

Definition flush (text : string) (rest : list segment) : list segment :=
  if decide (text = EmptyString) then rest else Lit text :: rest.

Fixpoint parse_format (st : fstate) (s : string) : result (list segment) :=
  match s with
  | EmptyString =>
      match st with
      | InLit text => Ok (flush text [])
      | InField _ => Raise (ValueError "expected '}' before end of string")
      end
  | String c s' =>
      match st with
      | InLit text =>
          if decide (c = "{"%char) then
            match s' with
            | String "{"%char s'' =>
                (* the doubled brace is read as one literal brace *)
                bind (parse_format (InLit EmptyString) s'')
                     (fun segs => Ok (flush (text +:+ "{") segs))
            | _ => bind (parse_format (InField EmptyString) s')
                        (fun segs => Ok (flush text segs))
            end
          else if decide (c = "}"%char) then
            match s' with
            | String "}"%char s'' =>
                bind (parse_format (InLit EmptyString) s'')
                     (fun segs => Ok (flush (text +:+ "}") segs))
            | _ => Raise (ValueError "Single '}' encountered in format string")
            end
          else parse_format (InLit (text +:+ String c EmptyString)) s'
      | InField name =>
          if decide (c = "}"%char)
          then bind (parse_format (InLit EmptyString) s')
                    (fun segs => Ok (Field name :: segs))
          else parse_format (InField (name +:+ String c EmptyString)) s'
      end
  end.

(** Substitution of the keyword arguments; a field without an argument
    raises [KeyError] with the field's name. *)
Fixpoint render (segs : list segment) (kwargs : gmap string string)
  : result string :=
  match segs with
  | [] => Ok EmptyString
  | Lit text :: rest =>
      bind (render rest kwargs) (fun out => Ok (text +:+ out))
  | Field name :: rest =>
      match kwargs !! name with
      | Some v => bind (render rest kwargs) (fun out => Ok (v +:+ out))
      | None => Raise (KeyError (PyStr name))
      end
  end.

Definition format (template : string) (kwargs : gmap string string)
  : result string :=
  bind (parse_format (InLit EmptyString) template)
       (fun segs => render segs kwargs).

End Py.

Import Py.

(** ** [DremioOdbcSqlQueryBuilder] *)

Module DremioOdbcSqlQueryBuilder.

Definition __TABLE_OWNER_INIT_STMT : string :=
  "
    SELECT
      TABLE_CATALOG AS db_name,
      TABLE_SCHEMA AS schema,
      '{cluster}' as cluster,
      TABLE_NAME AS table_name,
      '{owners}' AS owners
    FROM INFORMATION_SCHEMA." +:+ dq +:+ "TABLES" +:+ dq +:+ "
    {where_stmt};
    ".

Definition __APPLICATION_CONTEXT_INIT_STMT : string :=
  "
    SELECT
      '{task_id}' as task_id,
      '{dag_id}' as dag_id,
      '{exec_date}' as exec_date,
      '{application_url_template}' as application_url_template,
      TABLE_CATALOG AS db_name,
      '{cluster}' as cluster,
      TABLE_SCHEMA AS schema,
      TABLE_NAME AS table_name
    FROM INFORMATION_SCHEMA." +:+ dq +:+ "TABLES" +:+ dq +:+ "
    {where_stmt};
    ".

(** [__SQL_STMT_MAPPING[key]]: the keys are the two members of
    [SqlStatement]; any other object is a missing key. *)
Definition __SQL_STMT_MAPPING (key : pyval) : result string :=
  match key with
  | PySqlStatement TABLE_OWNER_INIT => Ok __TABLE_OWNER_INIT_STMT
  | PySqlStatement APPLICATION => Ok __APPLICATION_CONTEXT_INIT_STMT
  | _ => Raise (KeyError key)
  end.

Definition __TABLE_TYPE_NOT_PDS_EXPR : string := "{prefix}TABLE_TYPE != 'TABLE'".
Definition __TABLE_TYPE_NOT_SYS_EXPR : string :=
  "{prefix}TABLE_TYPE != 'SYSTEM_TABLE'".

(** [__WHERE_STMT_MAPPING[key]]: the keys are the four members of
    [SqlWhereStatement]. *)
Definition __WHERE_STMT_MAPPING (key : pyval) : result string :=
  match key with
  | PySqlWhereStatement EXCLUDE_PDS_TABLES =>
      Ok ("WHERE " +:+ __TABLE_TYPE_NOT_PDS_EXPR)
  | PySqlWhereStatement EXCLUDE_SYS_TABLES =>
      Ok ("WHERE " +:+ __TABLE_TYPE_NOT_SYS_EXPR)
  | PySqlWhereStatement EXCLUDE_PDS_AND_SYS_TABLES =>
      Ok ("WHERE " +:+ __TABLE_TYPE_NOT_PDS_EXPR +:+ " and "
          +:+ __TABLE_TYPE_NOT_SYS_EXPR)
  | PySqlWhereStatement INCLUDE_ALL => Ok EmptyString
  | _ => Raise (KeyError key)
  end.

(** [stmt_type, stmt_prefix = where_stmt], which needs exactly two
    items. *)
Definition unpack2 (v : pyval) : result (pyval * pyval) :=
  match v with
  | PyTuple [a; b] => Ok (a, b)
  | PyTuple _ => Raise (ValueError "wrong number of values to unpack")
  | _ => Raise (TypeError "cannot unpack non-iterable object")
  end.

(** [stmt_prefix += suffix] with [suffix] a string: defined on strings
    only. *)
Definition iadd_str (v : pyval) (suffix : string) : result string :=
  match v with
  | PyStr s => Ok (s +:+ suffix)
  | _ => Raise (TypeError "unsupported operand type(s) for +=")
  end.

(** The first four lines of [get_sql_statement]: the filter kind and the
    prefix, already followed by its dot, that the WHERE statement is
    built from. *)
Definition stmt_type_prefix (where_stmt : pyval) : result (pyval * string) :=
  if truthy where_stmt then
    bind (match where_stmt with
          | PyTuple _ => unpack2 where_stmt
          | _ => Ok (where_stmt, PyStr EmptyString)
          end)
         (fun tp =>
            bind (iadd_str (snd tp) (if truthy (snd tp) then "." else EmptyString))
                 (fun stmt_prefix => Ok (fst tp, stmt_prefix)))
  else Ok (PySqlWhereStatement INCLUDE_ALL, EmptyString).

(** [get_sql_statement(sql_stmt_enum, where_stmt=None, **kwargs)]; the
    keyword arguments are given by the text [str] shows for them. *)
Definition get_sql_statement (sql_stmt_enum where_stmt : pyval)
    (kwargs : gmap string string) : result string :=
  bind (stmt_type_prefix where_stmt) (fun tp =>
  bind (__WHERE_STMT_MAPPING (fst tp)) (fun where_template =>
  bind (format where_template {[ "prefix" := snd tp ]}) (fun where_text =>
  let query_kwargs := <[ "where_stmt" := where_text ]> kwargs in
  bind (__SQL_STMT_MAPPING sql_stmt_enum) (fun template =>
  format template query_kwargs)))).

End DremioOdbcSqlQueryBuilder.

(** ** [itertools.groupby] *)

Section Groupby.
Context {A K : Type} `{EqDecision K}.
Variable key : A -> K.

(** The iterator keeps the key of the group being read ([tgtkey]) and
    starts a new group at the first element whose key differs from it;
    [cur] holds the elements of the group read so far. *)
Fixpoint groupby_from (tgtkey : K) (cur : list A) (l : list A)
  : list (list A) :=
  match l with
  | [] => [cur]
  | x :: rest =>
      if decide (key x = tgtkey)
      then groupby_from tgtkey (cur ++ [x]) rest
      else cur :: groupby_from (key x) [x] rest
  end.

(** The groups [groupby(l, key)] yields when each is read to its end
    before the next is asked for. *)
Definition groupby (l : list A) : list (list A) :=
  match l with
  | [] => []
  | x :: rest => groupby_from (key x) [x] rest
  end.
End Groupby.

(** What it means to cut a list into runs of equal keys. *)
Section Runs.
Context {A K : Type}.
Variable key : A -> K.

(** All elements of a group have the same key. *)
Definition same_key (g : list A) : Prop :=
  forall x y, x ∈ g -> y ∈ g -> key x = key y.

(** No element of a group has the key of an element of the next one. *)
Fixpoint breaks (G : list (list A)) : Prop :=
  match G with
  | g1 :: G' =>
      match G' with
      | g2 :: _ => forall x y, x ∈ g1 -> y ∈ g2 -> key x <> key y
      | [] => True
      end /\ breaks G'
  | [] => True
  end.

(** [G] cuts [l] into its maximal runs of equal keys. *)
Definition maximal_runs (l : list A) (G : list (list A)) : Prop :=
  concat G = l /\ Forall (fun g => g <> []) G /\ Forall same_key G
  /\ breaks G.
End Runs.

(** ** [DremioTableColumnExtractor] *)

Module DremioTableColumnExtractor.

Record TableKey : Type := mkTableKey {
  tk_schema : string;
  tk_table_name : string
}.

#[global] Instance TableKey_eq_dec : EqDecision TableKey.
Proof. solve_decision. Defined.

(** A result row as [_get_raw_extract_iter] yields it: the dictionary
    from the column names of [SQL_STATEMENT] to the values of the row.
    [is_view] is kept as the object the driver delivers for the SQL
    boolean. *)
Record Row : Type := mkRow {
  col_name : string;
  col_description : option string;
  col_type : string;
  col_sort_order : Z;
  database : string;
  cluster : string;
  schema : string;
  name : string;
  description : string;
  is_view : pyval;
  tags : string
}.

(** [ColumnMetadata(name, description, col_type, sort_order)], by its
    constructor arguments. *)
Record ColumnMetadata : Type := mkColumnMetadata {
  cm_name : string;
  cm_description : option string;
  cm_col_type : string;
  cm_sort_order : Z
}.

(** [TableMetadata(database, cluster, schema, name, description, columns,
    is_view, tags)], by its constructor arguments. *)
Record TableMetadata : Type := mkTableMetadata {
  tm_database : string;
  tm_cluster : string;
  tm_schema : string;
  tm_name : string;
  tm_description : string;
  tm_columns : list ColumnMetadata;
  tm_is_view : bool;
  tm_tags : option (list string)
}.

Definition SQL_STATEMENT : string :=
  "
    SELECT
      nested_1.COLUMN_NAME AS col_name,
      CAST(NULL AS VARCHAR) AS col_description,
      nested_1.DATA_TYPE AS col_type,
      nested_1.ORDINAL_POSITION AS col_sort_order,
      nested_1.TABLE_CATALOG AS database,
      '{cluster}' AS cluster,
      nested_1.TABLE_SCHEMA AS schema,
      nested_1.TABLE_NAME AS name,
      CASE WHEN nested_2.WIKI IS NULL THEN '' ELSE nested_2.WIKI END AS description,
      CASE WHEN nested_0.TABLE_TYPE='VIEW' THEN TRUE ELSE FALSE END AS is_view,
      CASE WHEN nested_2.TAGS IS NULL THEN '' ELSE nested_2.TAGS END AS tags
    FROM (
      SELECT TABLE_CATALOG, TABLE_SCHEMA, TABLE_NAME, TABLE_TYPE
      FROM INFORMATION_SCHEMA." +:+ dq +:+ "TABLES" +:+ dq +:+ "
    ) nested_0
    RIGHT JOIN (
      SELECT TABLE_CATALOG, TABLE_SCHEMA, TABLE_NAME, COLUMN_NAME, DATA_TYPE, ORDINAL_POSITION
      FROM INFORMATION_SCHEMA." +:+ dq +:+ "COLUMNS" +:+ dq +:+ "
    ) nested_1 ON nested_0.TABLE_NAME = nested_1.TABLE_NAME
      AND nested_0.TABLE_SCHEMA = nested_1.TABLE_SCHEMA
      AND nested_0.TABLE_CATALOG = nested_1.TABLE_CATALOG
    LEFT JOIN (
      SELECT TABLE_CATALOG, TABLE_SCHEMA, TABLE_NAME, WIKI, TAGS
      FROM {dremio_collaboration_metadata_table}
    ) nested_2 ON nested_0.TABLE_NAME = nested_2.TABLE_NAME
      AND nested_0.TABLE_SCHEMA = nested_2.TABLE_SCHEMA
      AND nested_0.TABLE_CATALOG = nested_2.TABLE_CATALOG
    {where_stmt}
    ".

(** The configuration after [with_fallback], by the keys [init] reads
    for the query and the grouping. *)
Record ConfigTree : Type := mkConfigTree {
  cluster_key : string;
  exclude_system_tables : bool;
  exclude_pds_tables : bool;
  dremio_collaboration_metadata_table_key : string;
  tags_seperator : option string
}.

Definition DEFAULT_CLUSTER_NAME : string := "Production".
Definition DEFAULT_EXCLUDE_SYS_TABLES : bool := true.
Definition DEFAULT_EXCLUDE_PDS_TABLES : bool := false.
Definition DEFAULT_DREMIO_COLLABORATON_METADATA_TABLE : string :=
  "DREMIO_COLLABORATION_METADATA".
Definition DEFAULT_TAGS_SEPARATOR : option string := None.

Definition DEFAULT_CONFIG : ConfigTree := {|
  cluster_key := DEFAULT_CLUSTER_NAME;
  exclude_system_tables := DEFAULT_EXCLUDE_SYS_TABLES;
  exclude_pds_tables := DEFAULT_EXCLUDE_PDS_TABLES;
  dremio_collaboration_metadata_table_key :=
    DEFAULT_DREMIO_COLLABORATON_METADATA_TABLE;
  tags_seperator := DEFAULT_TAGS_SEPARATOR
|}.

(** The four-way branch of [init] that chooses [where_stmt]. *)
Definition where_stmt (exclude_sys_tables exclude_pds_tables : bool) : string :=
  if exclude_sys_tables && exclude_pds_tables then
    "WHERE nested_0.TABLE_TYPE != 'SYSTEM_TABLE' AND "
    +:+ "nested_0.TABLE_TYPE != 'TABLE';"
  else if exclude_sys_tables then
    "WHERE nested_0.TABLE_TYPE != 'SYSTEM_TABLE';"
  else if exclude_pds_tables then
    "WHERE nested_0.TABLE_TYPE != 'TABLE';"
  else ";".

(** A generator over finitely many rows, as the outcomes its successive
    resumptions produce: a yielded record, or an exception, after which
    the generator is finished. *)
Definition generator : Type := list (result TableMetadata).

(** The cursor of the connection: the rows [execute] returns for a
    statement. *)
Definition cursor : Type := string -> list Row.

Record Extractor : Type := mkExtractor {
  _cluster : string;
  _tags_separator : option string;
  _dremio_collaboration_metadata_table : string;
  sql_stmt : string;
  _pyodbc_cursor : cursor;
  _extract_iter : option generator
}.

(** [init(conf)]; [connection] is the cursor that [connect] returns. *)
Definition init (conf : ConfigTree) (connection : cursor) : result Extractor :=
  let exclude_sys_tables := exclude_system_tables conf in
  let exclude_pds_tables := exclude_pds_tables conf in
  let where_stmt := where_stmt exclude_sys_tables exclude_pds_tables in
  bind (format SQL_STATEMENT
          {[ "cluster" := cluster_key conf;
             "dremio_collaboration_metadata_table" :=
               dremio_collaboration_metadata_table_key conf;
             "where_stmt" := where_stmt ]})
       (fun stmt =>
          Ok {| _cluster := cluster_key conf;
                _tags_separator := tags_seperator conf;
                _dremio_collaboration_metadata_table :=
                  dremio_collaboration_metadata_table_key conf;
                sql_stmt := stmt;
                _pyodbc_cursor := connection;
                _extract_iter := None |}).

Definition _get_raw_extract_iter (self : Extractor) : list Row :=
  _pyodbc_cursor self (sql_stmt self).

(** [_get_table_key(row)]; a row with the columns of [SQL_STATEMENT] is
    a non-empty dictionary, so the test [if row:] succeeds. *)
Definition _get_table_key (row : Row) : option TableKey :=
  Some {| tk_schema := schema row; tk_table_name := name row |}.

(** [ColumnMetadata(row['col_name'], row['col_description'],
    row['col_type'], row['col_sort_order'])]. *)
Definition column_of (row : Row) : ColumnMetadata :=
  {| cm_name := col_name row;
     cm_description := col_description row;
     cm_col_type := col_type row;
     cm_sort_order := col_sort_order row |}.

(** The inner loop of [_get_extract_iter] over one group: [last_row] is
    rebound and a column appended for every row. *)
Definition for_row (st : option Row * list ColumnMetadata) (row : Row)
  : option Row * list ColumnMetadata :=
  (Some row, (snd st ++ [column_of row])%list).

(** The last argument of [TableMetadata(...)]:
    [tags.split(sep) if tags else None]. *)
Definition tags_value (sep : option string) (tags : string)
  : result (option (list string)) :=
  if truthy (PyStr tags) then bind (split sep tags) (fun l => Ok (Some l))
  else Ok None.

(** The [yield] expression, from [last_row] and [columns]. *)
Definition table_of (sep : option string) (last_row : Row)
    (columns : list ColumnMetadata) : result TableMetadata :=
  bind (tags_value sep (tags last_row)) (fun tgs =>
  Ok {| tm_database := database last_row;
        tm_cluster := cluster last_row;
        tm_schema := schema last_row;
        tm_name := name last_row;
        tm_description := description last_row;
        tm_columns := columns;
        tm_is_view := eq_str (is_view last_row) "true";
        tm_tags := tgs |}).

(** The outer loop of [_get_extract_iter]. [last_row] is a variable of
    the whole function, so its binding survives from one group to the
    next; it is unbound before the first row. *)
Fixpoint for_groups (sep : option string) (last_row : option Row)
    (groups : list (list Row)) : generator :=
  match groups with
  | [] => []
  | group :: rest =>
      let st := fold_left for_row group (last_row, []) in
      match fst st with
      | None => [Raise (UnboundLocalError "last_row")]
      | Some lr =>
          match table_of sep lr (snd st) with
          | Ok t => Ok t :: for_groups sep (fst st) rest
          | Raise e => [Raise e]
          end
      end
  end.

Definition _get_extract_iter (self : Extractor) : generator :=
  for_groups (_tags_separator self) None
    (groupby _get_table_key (_get_raw_extract_iter self)).

(** What [next(g)] does to a generator. *)
Inductive resumed : Type :=
| Yielded (t : TableMetadata)
| StopIteration
| Raised (e : exn).

Definition next (g : generator) : resumed * generator :=
  match g with
  | [] => (StopIteration, [])
  | Ok t :: g' => (Yielded t, g')
  | Raise e :: _ => (Raised e, [])
  end.

(** [extract()]: the value returned or the exception raised, and the
    extractor afterwards. *)
Definition extract (self : Extractor)
  : result (option TableMetadata) * Extractor :=
  let it := match _extract_iter self with
            | Some g => g
            | None => _get_extract_iter self
            end in
  let r := next it in
  let self' := {| _cluster := _cluster self;
                  _tags_separator := _tags_separator self;
                  _dremio_collaboration_metadata_table :=
                    _dremio_collaboration_metadata_table self;
                  sql_stmt := sql_stmt self;
                  _pyodbc_cursor := _pyodbc_cursor self;
                  _extract_iter := Some (snd r) |} in
  (match fst r with
   | Yielded t => Ok (Some t)
   | StopIteration => Ok None
   | Raised e => Raise e
   end, self').

Definition get_scope : string := "extractor.dremiotablecolumn".

(** The extractor after [n] calls of [extract()]. *)
Fixpoint after (n : nat) (self : Extractor) : Extractor :=
  match n with
  | O => self
  | S n' => after n' (snd (extract self))
  end.

(** The records the generator yields before it stops or raises. *)
Fixpoint yielded (g : generator) : list TableMetadata :=
  match g with
  | Ok t :: g' => t :: yielded g'
  | _ => []
  end.

End DremioTableColumnExtractor.

(** ** [DremioMetadataExtractor] *)

Module DremioMetadataExtractor.

(** [s.rsplit(".", 1)] where [s] has a dot: the text before the last dot
    and the text after it. *)
Fixpoint rsplit_dot (s : string) : option (string * string) :=
  match s with
  | EmptyString => None
  | String c s' =>
      match rsplit_dot s' with
      | Some ab => Some (String c (fst ab), snd ab)
      | None =>
          if decide (c = "."%char) then Some (EmptyString, s') else None
      end
  end.

(** [s.rsplit(".", 1)]: one piece without a dot, two with one. *)
Definition rsplit1 (s : string) : list string :=
  match rsplit_dot s with
  | Some ab => [fst ab; snd ab]
  | None => [s]
  end.

(** [dict(zip(names, record))]: the pairs are entered from left to
    right, so of two values under one name the later one stays. *)
Definition dict_zip (names : list string) (record : list pyval)
  : gmap string pyval :=
  fold_left (fun d kv => <[ fst kv := snd kv ]> d) (zip names record) ∅.

(** The cursor: the names in [description] and the records [execute]
    returns for a statement. *)
Record cursor : Type := mkCursor {
  description : list string;
  execute : option string -> list (list pyval)
}.

Record ConfigTree : Type := mkConfigTree {
  sql_statement : option string;
  model_class : option string
}.

Definition DEFAULT_CONFIG : ConfigTree :=
  {| sql_statement := None; model_class := None |}.

Section Model.
(** The instances of the model class, the modules that can be imported
    and what [importlib.import_module] and [getattr] do with them. A
    class is called with the fields of a row as keyword arguments. *)
Variable Model : Type.
Variable PyModule : Type.
Variable import_module : string -> result PyModule.
Variable getattr :
  PyModule -> string -> result (gmap string pyval -> result Model).

Definition class : Type := gmap string pyval -> result Model.

(** What [extract()] returns for a row: the dictionary of the row, or
    the instance made from it. *)
Inductive item : Type :=
| RawRow (result : gmap string pyval)
| Instance (m : Model).

Definition generator : Type := list (result item).

Record Extractor : Type := mkExtractor {
  __sql_stmt : option string;
  __model_class : option class;
  __dremio_odbc_cursor : cursor;
  _extract_iter : option generator
}.

(** [__get_model_class(model_class_name)]; without a name the method
    returns [None]. *)
Definition __get_model_class (model_class_name : option string)
  : result (option class) :=
  match model_class_name with
  | Some nm =>
      if truthy (PyStr nm) then
        match rsplit1 nm with
        | [module_name; class_name] =>
            bind (import_module module_name) (fun mod_ =>
            bind (getattr mod_ class_name) (fun cls => Ok (Some cls)))
        | _ => Raise (ValueError "not enough values to unpack")
        end
      else Ok None
  | None => Ok None
  end.

(** [init(conf)]; [connection] is the cursor of the connection, which is
    opened after the model class is found. *)
Definition init (conf : ConfigTree) (connection : cursor)
  : result Extractor :=
  bind (__get_model_class (model_class conf)) (fun cls =>
  Ok {| __sql_stmt := sql_statement conf;
        __model_class := cls;
        __dremio_odbc_cursor := connection;
        _extract_iter := None |}).

(** The loop of [__get_extract_iter] over the records. *)
Fixpoint for_records (names : list string) (cls : option class)
    (records : list (list pyval)) : generator :=
  match records with
  | [] => []
  | record :: rest =>
      let result := dict_zip names record in
      match cls with
      | Some make =>
          match make result with
          | Ok m => Ok (Instance m) :: for_records names cls rest
          | Raise e => [Raise e]
          end
      | None => Ok (RawRow result) :: for_records names cls rest
      end
  end.

Definition __get_extract_iter (self : Extractor) : generator :=
  for_records (description (__dremio_odbc_cursor self)) (__model_class self)
    (execute (__dremio_odbc_cursor self) (__sql_stmt self)).

(** What [next(g)] does to a generator. *)
Inductive resumed : Type :=
| Yielded (it : item)
| StopIteration
| Raised (e : exn).

Definition next (g : generator) : resumed * generator :=
  match g with
  | [] => (StopIteration, [])
  | Ok it :: g' => (Yielded it, g')
  | Raise e :: _ => (Raised e, [])
  end.

Definition extract (self : Extractor) : result (option item) * Extractor :=
  let it := match _extract_iter self with
            | Some g => g
            | None => __get_extract_iter self
            end in
  let r := next it in
  (match fst r with
   | Yielded x => Ok (Some x)
   | StopIteration => Ok None
   | Raised e => Raise e
   end,
   {| __sql_stmt := __sql_stmt self;
      __model_class := __model_class self;
      __dremio_odbc_cursor := __dremio_odbc_cursor self;
      _extract_iter := Some (snd r) |}).

(** The extractor after [n] calls of [extract()]. *)
Fixpoint after (n : nat) (self : Extractor) : Extractor :=
  match n with
  | O => self
  | S n' => after n' (snd (extract self))
  end.

End Model.

Definition get_scope : string := "extractor.dremio".

End DremioMetadataExtractor.

(** ** Vocabulary of the statements *)

Import DremioOdbcSqlQueryBuilder DremioTableColumnExtractor.

(** The groups the extractor reads: the rows of the query, cut by
    [groupby] on the table key. *)
Definition groups (self : Extractor) : list (list Row) :=
  groupby _get_table_key (_get_raw_extract_iter self).

(** The records the extractor emits: what iterating
    [_get_extract_iter] yields. *)
Definition emitted (self : Extractor) : list TableMetadata :=
  yielded (_get_extract_iter self).

(** The record of a group is built from its last row and from the
    columns of all its rows. *)
Definition built_from (sep : option string) (g : list Row)
    (t : TableMetadata) : Prop :=
  exists last_row,
    last g = Some last_row /\ table_of sep last_row (map column_of g) = Ok t.

(** The generator [extract()] resumes: the stored one, or a new one on
    the first call. *)
Definition current_iter (self : Extractor) : generator :=
  match _extract_iter self with
  | Some g => g
  | None => _get_extract_iter self
  end.

(** The name of a record with the names of its columns. *)
Definition summary (t : TableMetadata) : string * list string :=
  (tm_name t, map cm_name (tm_columns t)).

(** The WHERE statement of a filter kind for a given prefix of the
    column. *)
Definition where_text (kind : SqlWhereStatement) (prefix : string) : string :=
  match kind with
  | EXCLUDE_PDS_TABLES => "WHERE " +:+ prefix +:+ "TABLE_TYPE != 'TABLE'"
  | EXCLUDE_SYS_TABLES => "WHERE " +:+ prefix +:+ "TABLE_TYPE != 'SYSTEM_TABLE'"
  | EXCLUDE_PDS_AND_SYS_TABLES =>
      "WHERE " +:+ prefix +:+ "TABLE_TYPE != 'TABLE' and "
      +:+ prefix +:+ "TABLE_TYPE != 'SYSTEM_TABLE'"
  | INCLUDE_ALL => EmptyString
  end.

(** The template of a statement, its parsed form and the keyword
    arguments it needs besides [where_stmt]. *)
Definition template_of (e : SqlStatement) : string :=
  match e with
  | TABLE_OWNER_INIT => __TABLE_OWNER_INIT_STMT
  | APPLICATION => __APPLICATION_CONTEXT_INIT_STMT
  end.

Definition segments_of (e : SqlStatement) : list segment :=
  Eval vm_compute in
    match e with
    | TABLE_OWNER_INIT =>
        match parse_format (InLit EmptyString) __TABLE_OWNER_INIT_STMT with
        | Ok segs => segs
        | Raise _ => []
        end
    | APPLICATION =>
        match parse_format (InLit EmptyString)
                __APPLICATION_CONTEXT_INIT_STMT with
        | Ok segs => segs
        | Raise _ => []
        end
    end.

Definition placeholders (e : SqlStatement) : list string :=
  match e with
  | TABLE_OWNER_INIT => ["cluster"; "owners"]
  | APPLICATION =>
      ["task_id"; "dag_id"; "exec_date"; "application_url_template"; "cluster"]
  end.

Definition supplies (kwargs : gmap string string) (e : SqlStatement) : Prop :=
  Forall (fun field => is_Some (kwargs !! field)) (placeholders e).

(** The filter kind [get_sql_statement] looks up for a [where_stmt]
    that is true: the object itself when it is no tuple, the first item
    when it is a pair whose second item is a string. *)
Definition supplied_kind (where_stmt : pyval) : option pyval :=
  if truthy where_stmt then
    match where_stmt with
    | PyTuple [kind; PyStr _] => Some kind
    | PyTuple _ => None
    | _ => Some where_stmt
    end
  else None.

(** The first placeholder of the template, in its order, that the
    keyword arguments do not supply. *)
Definition first_missing (kwargs : gmap string string) (e : SqlStatement)
  : option string :=
  find (fun field =>
          match kwargs !! field with
          | Some _ => false
          | None => true
          end)
       (placeholders e).

(** The [is_view] column of [SQL_STATEMENT] for a table type, [None]
    being NULL:
    [CASE WHEN nested_0.TABLE_TYPE='VIEW' THEN TRUE ELSE FALSE END]. *)
Definition is_view_column (table_type : option string) : bool :=
  match table_type with
  | Some ty => String.eqb ty "VIEW"
  | None => false
  end.

(** A SQL boolean as the ODBC driver hands it to Python: a [bool]. *)
Definition delivered_boolean (b : bool) : pyval := PyBool b.

(** Whether [pat] occurs in [s]. *)
Fixpoint contains (pat s : string) : bool :=
  String.prefix pat s
  || match s with
     | EmptyString => false
     | String _ s' => contains pat s'
     end.

(** Whether a string has a whitespace character. *)
Fixpoint has_space (s : string) : bool :=
  match s with
  | EmptyString => false
  | String c s' => isspace c || has_space s'
  end.

(** The table types [init] excludes for given flags, the condition that
    excludes one, and the clause of a list of conditions. *)
Definition excluded_types (exclude_sys exclude_pds : bool) : list string :=
  (if exclude_sys then ["SYSTEM_TABLE"] else [])
  ++ (if exclude_pds then ["TABLE"] else []).

Definition negation (table_type : string) : string :=
  "nested_0.TABLE_TYPE != '" +:+ table_type +:+ "'".

Fixpoint conjunction (conds : list string) : string :=
  match conds with
  | [] => EmptyString
  | [c] => c
  | c :: rest => c +:+ " AND " +:+ conjunction rest
  end.

Definition where_clause (conds : list string) : string :=
  match conds with
  | [] => EmptyString
  | _ => "WHERE " +:+ conjunction conds
  end.

(** The parsed form of [SQL_STATEMENT]. *)
Definition SQL_STATEMENT_segments : list segment :=
  Eval vm_compute in
    match parse_format (InLit EmptyString) SQL_STATEMENT with
    | Ok segs => segs
    | Raise _ => []
    end.

(** An extractor over given rows, before its first [extract()]. *)
Definition extractor_over (sep : option string) (rows : list Row) : Extractor :=
  {| _cluster := DEFAULT_CLUSTER_NAME;
     _tags_separator := sep;
     _dremio_collaboration_metadata_table :=
       DEFAULT_DREMIO_COLLABORATON_METADATA_TABLE;
     sql_stmt := EmptyString;
     _pyodbc_cursor := fun _ => rows;
     _extract_iter := None |}.

(** A row of table [t] in schema [s] for the column [c], with the tag
    string [tg] and [v] delivered for [is_view]. *)
Definition a_row (s t c tg : string) (v : pyval) : Row :=
  {| col_name := c; col_description := None; col_type := "varchar";
     col_sort_order := 1; database := "db"; cluster := "Production";
     schema := s; name := t; description := EmptyString;
     is_view := v; tags := tg |}.

(** An extractor with the separator [","] over one row tagged ["x,y"],
    and the record it emits. *)
Definition comma_extractor : Extractor :=
  extractor_over (Some ",") [a_row "s" "t" "c" "x,y" (PyStr "false")].

Definition comma_record : TableMetadata :=
  {| tm_database := "db"; tm_cluster := "Production"; tm_schema := "s";
     tm_name := "t"; tm_description := EmptyString;
     tm_columns := [column_of (a_row "s" "t" "c" "x,y" (PyStr "false"))];
     tm_is_view := false; tm_tags := Some ["x"; "y"] |}.

(** The row of one column of a table of type VIEW. *)
Definition view_row : Row :=
  {| col_name := "c"; col_description := None; col_type := "varchar";
     col_sort_order := 1; database := "db"; cluster := "Production";
     schema := "s"; name := "v"; description := EmptyString;
     is_view := delivered_boolean (is_view_column (Some "VIEW"));
     tags := EmptyString |}.

(** Two rows of [t1] and one of [t2], all tagged. *)
Definition tagged_rows : list Row :=
  [ {| col_name := "a"; col_description := None; col_type := "varchar";
       col_sort_order := 1; database := "db"; cluster := "Production";
       schema := "s"; name := "t1"; description := EmptyString;
       is_view := PyStr "false"; tags := "x" |};
    {| col_name := "b"; col_description := None; col_type := "varchar";
       col_sort_order := 2; database := "db"; cluster := "Production";
       schema := "s"; name := "t1"; description := EmptyString;
       is_view := PyStr "false"; tags := "x" |};
    {| col_name := "c"; col_description := None; col_type := "varchar";
       col_sort_order := 1; database := "db"; cluster := "Production";
       schema := "s"; name := "t2"; description := EmptyString;
       is_view := PyStr "false"; tags := "y" |} ].

(** Two rows of [t1] followed by one of [t2], and the rows of [t1]
    separated by the row of [t2]. *)
Definition adjacent_rows : list Row :=
  [ a_row "s" "t1" "a" EmptyString (PyStr "false");
    a_row "s" "t1" "b" EmptyString (PyStr "false");
    a_row "s" "t2" "c" EmptyString (PyStr "false") ].

Definition separated_rows : list Row :=
  [ a_row "s" "t1" "a" EmptyString (PyStr "false");
    a_row "s" "t2" "c" EmptyString (PyStr "false");
    a_row "s" "t1" "b" EmptyString (PyStr "false") ].

(** What the call of [extract()] with number [i], counted from 0,
    returns when the generator is [g]. *)
Definition outcome_at (g : generator) (i : nat)
  : result (option TableMetadata) :=
  match g !! i with
  | Some (Ok t) => Ok (Some t)
  | Some (Raise e) => Raise e
  | None => Ok None
  end.

(** A generator has nothing after an exception. *)
Definition ends_at_raise (g : generator) : Prop :=
  forall i e, g !! i = Some (Raise e) -> length g = S i.

(** [sep.join(pieces)]. *)
Fixpoint join (sep : string) (pieces : list string) : string :=
  match pieces with
  | [] => EmptyString
  | [p] => p
  | p :: rest => p +:+ sep +:+ join sep rest
  end.

(** Whether a string has a dot. *)
Fixpoint has_dot (s : string) : bool :=
  match s with
  | EmptyString => false
  | String c s' => if decide (c = "."%char) then true else has_dot s'
  end.

(** What [DremioMetadataExtractor] yields for a record: the dictionary,
    or the instance the model class makes of it. *)
Definition item_of {Model : Type}
    (names : list string)
    (cls : option (DremioMetadataExtractor.class Model))
    (record : list pyval)
  : result (DremioMetadataExtractor.item Model) :=
  match cls with
  | Some make =>
      bind (make (DremioMetadataExtractor.dict_zip names record))
           (fun m => Ok (DremioMetadataExtractor.Instance Model m))
  | None =>
      Ok (DremioMetadataExtractor.RawRow Model
            (DremioMetadataExtractor.dict_zip names record))
  end.

(** The generator [extract()] of [DremioMetadataExtractor] resumes. *)
Definition generic_iter {Model : Type}
    (self : DremioMetadataExtractor.Extractor Model)
  : DremioMetadataExtractor.generator Model :=
  match DremioMetadataExtractor._extract_iter Model self with
  | Some g => g
  | None => DremioMetadataExtractor.__get_extract_iter Model self
  end.

(** * Properties *)

(** ** Grouping into runs *)

Section GroupbyFacts.
Context {A K : Type} `{EqDecision K}.
Variable key : A -> K.

Lemma groupby_from_inv (l : list A) :
  forall (k : K) (cur : list A),
    cur <> [] -> Forall (fun x => key x = k) cur ->
    exists g G',
      groupby_from key k cur l = g :: G'
      /\ Forall (fun x => key x = k) g
      /\ maximal_runs key (cur ++ l) (g :: G').
Proof.
  induction l as [|x rest IH]; intros k cur Hne Hk; simpl.
  - exists cur, []. split; [done|]. split; [done|].
    split_and!; simpl; [done| by constructor | | done].
    constructor; [|constructor]. intros a b Ha Hb.
    rewrite Forall_forall in Hk. by rewrite (Hk a Ha), (Hk b Hb).
  - destruct (decide (key x = k)) as [Hx|Hx].
    + destruct (IH k (cur ++ [x])) as (g & G' & Heq & Hg & Hmax).
      * by destruct cur.
      * apply Forall_app. split; [done|]. by constructor.
      * exists g, G'. rewrite <- app_assoc in Hmax. done.
    + destruct (IH (key x) [x]) as (g & G' & Heq & Hg & Hc & Hn & Hs & Hb);
        [done|by constructor|].
      exists cur, (g :: G'). rewrite Heq. split; [done|]. split; [done|].
      split_and!.
      * simpl in *. by rewrite Hc.
      * by constructor.
      * constructor; [|done]. intros a b Ha Hb'.
        rewrite Forall_forall in Hk. by rewrite (Hk a Ha), (Hk b Hb').
      * split; [|done]. intros a b Ha Hb'. rewrite Forall_forall in Hk, Hg.
        rewrite (Hk a Ha), (Hg b Hb'). congruence.
Qed.

Lemma groupby_maximal_runs (l : list A) : maximal_runs key l (groupby key l).
Proof.
  destruct l as [|x rest]; simpl.
  - split_and!; by constructor.
  - destruct (groupby_from_inv rest (key x) [x]) as (g & G' & Heq & _ & Hmax);
      [done|by constructor|].
    by rewrite Heq.
Qed.

(** The breaks, by position. *)
Lemma breaks_lookup (G : list (list A)) :
  breaks key G ->
  forall i g1 g2 x y,
    G !! i = Some g1 -> G !! S i = Some g2 -> x ∈ g1 -> y ∈ g2 ->
    key x <> key y.
Proof.
  induction G as [|g G IH]; [done|]. intros [Hb1 Hb2].
  intros [|i] g1 g2 x y H1 H2; simpl in *.
  - destruct G as [|g' G]; [done|]. simpl in *.
    injection H1 as <-. injection H2 as <-. apply Hb1.
  - by apply (IH Hb2 i).
Qed.

Lemma groupby_length (l : list A) : length (groupby key l) <= length l.
Proof.
  destruct (groupby_maximal_runs l) as (Hc & Hn & _).
  rewrite <- Hc at 2. clear Hc.
  induction Hn as [|g G Hg _ IH]; simpl; [done|].
  rewrite length_app. destruct g; [done|]. simpl. lia.
Qed.
End GroupbyFacts.

(** ** The generator of [DremioTableColumnExtractor] *)

Lemma fold_for_row (g : list Row) :
  forall (last_row : option Row) (columns : list ColumnMetadata),
    fold_left for_row g (last_row, columns)
    = (match last g with Some r => Some r | None => last_row end,
       columns ++ map column_of g).
Proof.
  induction g as [|r g IH]; intros last_row columns; simpl.
  - by rewrite app_nil_r.
  - unfold for_row at 2. simpl. rewrite IH, last_cons, <- app_assoc.
    by destruct (last g).
Qed.

Lemma for_groups_cons (sep : option string) (lr : option Row)
    (g : list Row) (G : list (list Row)) (r : Row) :
  last g = Some r ->
  for_groups sep lr (g :: G)
  = match table_of sep r (map column_of g) with
    | Ok t => Ok t :: for_groups sep (Some r) G
    | Raise e => [Raise e]
    end.
Proof.
  intros Hlast. simpl. rewrite fold_for_row, Hlast. done.
Qed.

Lemma last_nonempty {A} (g : list A) : g <> [] -> exists r, last g = Some r.
Proof.
  destruct g as [|x g]; [done|]. intros _. rewrite last_cons.
  destruct (last g); eauto.
Qed.

(** The yielded records are built from the first groups, one from
    each. *)
Lemma for_groups_yielded (sep : option string) (G : list (list Row)) :
  Forall (fun g => g <> []) G ->
  forall lr,
    Forall2 (built_from sep)
      (take (length (yielded (for_groups sep lr G))) G)
      (yielded (for_groups sep lr G)).
Proof.
  induction 1 as [|g G Hg _ IH]; intros lr; [constructor|].
  destruct (last_nonempty g Hg) as [r Hr].
  rewrite (for_groups_cons _ _ _ _ r Hr).
  destruct (table_of sep r (map column_of g)) as [t|e] eqn:Ht; simpl.
  - constructor; [by exists r|apply IH].
  - constructor.
Qed.

Lemma split_ok (sep : option string) (s : string) :
  sep <> Some EmptyString -> exists l, split sep s = Ok l.
Proof.
  intros Hsep. destruct sep as [[|c sp]|]; simpl; [done|eauto|eauto].
Qed.

Lemma table_of_ok (sep : option string) (r : Row) (cols : list ColumnMetadata) :
  sep <> Some EmptyString -> exists t, table_of sep r cols = Ok t.
Proof.
  intros Hsep. unfold table_of, tags_value.
  destruct (truthy (PyStr (tags r))); simpl; [|eauto].
  destruct (split_ok sep (tags r) Hsep) as [l ->]. simpl. eauto.
Qed.

(** With a separator that [split] accepts every group yields. *)
Lemma for_groups_total (sep : option string) (G : list (list Row)) :
  sep <> Some EmptyString ->
  Forall (fun g => g <> []) G ->
  forall lr, length (yielded (for_groups sep lr G)) = length G.
Proof.
  intros Hsep. induction 1 as [|g G Hg _ IH]; intros lr; [done|].
  destruct (last_nonempty g Hg) as [r Hr].
  rewrite (for_groups_cons _ _ _ _ r Hr).
  destruct (table_of_ok sep r (map column_of g) Hsep) as [t ->].
  simpl. by rewrite IH.
Qed.

Lemma for_groups_length (sep : option string) (G : list (list Row)) :
  forall lr, length (for_groups sep lr G) <= length G.
Proof.
  induction G as [|g G IH]; intros lr; simpl; [done|].
  destruct (fst _); simpl; [|lia].
  destruct (table_of _ _ _); simpl; [|lia].
  match goal with
  | |- context [for_groups sep ?l G] => specialize (IH l)
  end. lia.
Qed.

Lemma groups_nonempty (self : Extractor) :
  Forall (fun g => g <> []) (groups self).
Proof.
  by destruct (groupby_maximal_runs _get_table_key
                 (_get_raw_extract_iter self)) as (_ & ? & _).
Qed.

Lemma emitted_prefix (self : Extractor) :
  Forall2 (built_from (_tags_separator self))
    (take (length (emitted self)) (groups self)) (emitted self).
Proof. apply for_groups_yielded, groups_nonempty. Qed.

Lemma emitted_all (self : Extractor) :
  _tags_separator self <> Some EmptyString ->
  Forall2 (built_from (_tags_separator self)) (groups self) (emitted self).
Proof.
  intros Hsep. pose proof (emitted_prefix self) as H.
  unfold emitted, _get_extract_iter in *. fold (groups self) in *.
  rewrite (for_groups_total _ _ Hsep (groups_nonempty self)) in H.
  by rewrite firstn_all in H.
Qed.

Lemma emitted_lookup (self : Extractor) (i : nat) (t : TableMetadata) :
  emitted self !! i = Some t ->
  exists g, groups self !! i = Some g /\ built_from (_tags_separator self) g t.
Proof.
  intros Ht.
  destruct (Forall2_lookup_r _ _ _ _ _ (emitted_prefix self) Ht)
    as (g & Hg & Hb).
  apply lookup_take_Some in Hg as [Hg _]. eauto.
Qed.

Lemma table_of_inv (sep : option string) (r : Row)
    (cols : list ColumnMetadata) (t : TableMetadata) :
  table_of sep r cols = Ok t ->
  tags_value sep (tags r) = Ok (tm_tags t)
  /\ t = {| tm_database := database r; tm_cluster := cluster r;
            tm_schema := schema r; tm_name := name r;
            tm_description := description r; tm_columns := cols;
            tm_is_view := eq_str (is_view r) "true";
            tm_tags := tm_tags t |}.
Proof.
  unfold table_of. destruct (tags_value sep (tags r)) as [tg|e]; simpl; [|done].
  intros [= <-]. done.
Qed.

Lemma built_from_columns (sep : option string) (g : list Row)
    (t : TableMetadata) :
  built_from sep g t -> g <> [] /\ tm_columns t = map column_of g.
Proof.
  intros (r & Hr & Ht). split; [by destruct g|].
  apply table_of_inv in Ht as [_ ->]. done.
Qed.

Lemma built_from_concat (sep : option string) (G : list (list Row))
    (Y : list TableMetadata) :
  Forall2 (built_from sep) G Y ->
  concat (map tm_columns Y) = map column_of (concat G).
Proof.
  induction 1 as [|g t G Y Hb _ IH]; simpl; [done|].
  apply built_from_columns in Hb as [_ ->]. by rewrite IH, map_app.
Qed.

(** ** Successive calls of [extract()] *)

Lemma extract_unfold (self : Extractor) :
  extract self
  = (match fst (next (current_iter self)) with
     | Yielded t => Ok (Some t)
     | StopIteration => Ok None
     | Raised e => Raise e
     end,
     {| _cluster := _cluster self;
        _tags_separator := _tags_separator self;
        _dremio_collaboration_metadata_table :=
          _dremio_collaboration_metadata_table self;
        sql_stmt := sql_stmt self;
        _pyodbc_cursor := _pyodbc_cursor self;
        _extract_iter := Some (snd (next (current_iter self))) |}).
Proof. done. Qed.

Lemma current_iter_extract (self : Extractor) :
  current_iter (snd (extract self)) = snd (next (current_iter self)).
Proof. done. Qed.

Lemma next_length (g : generator) : length (snd (next g)) <= pred (length g).
Proof. destruct g as [|[t|e] g]; simpl; lia. Qed.

Lemma after_length (n : nat) :
  forall self,
    length (current_iter (after n self)) <= length (current_iter self) - n.
Proof.
  induction n as [|n IH]; intros self; [simpl; lia|].
  change (after (S n) self) with (after n (snd (extract self))).
  specialize (IH (snd (extract self))). rewrite current_iter_extract in IH.
  pose proof (next_length (current_iter self)). lia.
Qed.

Lemma extract_exhausted (self : Extractor) :
  current_iter self = [] -> fst (extract self) = Ok None.
Proof. intros H. rewrite extract_unfold, H. done. Qed.

(** An extractor that has returned [None] stays as it is. *)
Lemma extract_None_fixed (self self' : Extractor) :
  extract self = (Ok None, self') -> extract self' = (Ok None, self').
Proof.
  rewrite extract_unfold. intros [= Hres <-].
  destruct (current_iter self) as [|[t|e] g]; simpl in *; done.
Qed.

Lemma after_fixed (self : Extractor) (m : nat) :
  extract self = (Ok None, self) -> after m self = self.
Proof.
  intros H. induction m as [|m IH]; [done|].
  change (after (S m) self) with (after m (snd (extract self))).
  by rewrite H.
Qed.

(** The [i]-th call returns the [i]-th record the generator yields. *)
Lemma extract_nth (i : nat) :
  forall (self : Extractor) (t : TableMetadata),
    yielded (current_iter self) !! i = Some t ->
    fst (extract (after i self)) = Ok (Some t).
Proof.
  induction i as [|i IH]; intros self t Ht.
  - change (after 0 self) with self. rewrite extract_unfold.
    destruct (current_iter self) as [|[t'|e] g]; simpl in *; congruence.
  - change (after (S i) self) with (after i (snd (extract self))).
    apply IH. rewrite current_iter_extract.
    destruct (current_iter self) as [|[t'|e] g]; simpl in *; done.
Qed.

(** ** Strings *)

Lemma append_cons (c : ascii) (s1 s2 : string) :
  String c s1 +:+ s2 = String c (s1 +:+ s2).
Proof. reflexivity. Qed.

Lemma append_nil_l (s : string) : EmptyString +:+ s = s.
Proof. reflexivity. Qed.

Lemma append_assoc (s1 s2 s3 : string) :
  (s1 +:+ s2) +:+ s3 = s1 +:+ (s2 +:+ s3).
Proof.
  induction s1 as [|c s1 IH]; [done|]. rewrite !append_cons. congruence.
Qed.

Lemma append_nil_r (s : string) : s +:+ EmptyString = s.
Proof. induction s as [|c s IH]; [done|]. rewrite append_cons. congruence. Qed.

Lemma append_cons_ne (s : string) (c : ascii) (s' : string) :
  s +:+ String c s' <> EmptyString.
Proof. by destruct s. Qed.

(** Without whitespace there is nothing [split(None)] cuts at. *)
Lemma split_ws_no_space (s : string) :
  forall cur,
    has_space s = false -> cur +:+ s <> EmptyString ->
    split_ws cur s = [cur +:+ s].
Proof.
  induction s as [|c s IH]; intros cur Hs Hne; simpl in *.
  - rewrite append_nil_r in *. by destruct (decide (cur = EmptyString)).
  - apply orb_false_iff in Hs as [-> Hs].
    rewrite IH; [|done|].
    + by rewrite append_assoc, append_cons, append_nil_l.
    + rewrite append_assoc, append_cons, append_nil_l. apply append_cons_ne.
Qed.

Lemma truthy_str (s : string) : truthy (PyStr s) = true <-> s <> EmptyString.
Proof.
  simpl. rewrite negb_true_iff. apply eqb_neq.
Qed.

Lemma tags_value_empty (sep : option string) :
  tags_value sep EmptyString = Ok None.
Proof. done. Qed.

Lemma tags_value_nonempty (sep : option string) (tg : string) :
  tg <> EmptyString ->
  tags_value sep tg = bind (split sep tg) (fun l => Ok (Some l)).
Proof.
  intros H. unfold tags_value. apply truthy_str in H. by rewrite H.
Qed.

(** ** The claims on [DremioTableColumnExtractor] *)

(** C1, as the code has it. With a separator that [split] accepts (any
    but the empty string), the groups of the extractor are the maximal runs of
    consecutive rows with the same (schema, name), and the extractor
    emits one record per run, in order, whose columns are the
    [ColumnMetadata] of the rows of the run in arrival order and whose
    schema and name are those of every row of the run. Rows
    [(s,t1,a), (s,t1,b), (s,t2,c)] give two records, [t1] with [a, b]
    and [t2] with [c]; with the row of [t2] between the rows of [t1],
    [t1] gives two records. *)
Theorem grouping_by_runs (self : Extractor) :
  _tags_separator self <> Some EmptyString ->
  maximal_runs _get_table_key (_get_raw_extract_iter self) (groups self)
  /\ Forall2
       (fun g t =>
          tm_columns t = map column_of g
          /\ Forall (fun r => schema r = tm_schema t /\ name r = tm_name t) g)
       (groups self) (emitted self)
  /\ (forall sep,
        map summary (emitted (extractor_over sep adjacent_rows))
        = [("t1", ["a"; "b"]); ("t2", ["c"])])
  /\ (forall sep,
        map summary (emitted (extractor_over sep separated_rows))
        = [("t1", ["a"]); ("t2", ["c"]); ("t1", ["b"])]).
Proof.
  intros Hsep.
  pose proof (groupby_maximal_runs _get_table_key
                (_get_raw_extract_iter self)) as Hruns.
  split_and!; [done| |done|done].
  destruct Hruns as (_ & _ & Hsame & _). fold (groups self) in Hsame.
  pose proof (emitted_all self Hsep) as Hall.
  revert Hsame. induction Hall as [|g t G Y Hb _ IH]; intros Hsame;
    [constructor|].
  apply Forall_cons in Hsame as [Hg Hsame].
  constructor; [|by apply IH].
  split; [by apply built_from_columns in Hb as [_ ?]|].
  destruct Hb as (r & Hr & Ht).
  apply table_of_inv in Ht as [_ ->]. simpl.
  apply Forall_forall. intros x Hx.
  assert (Hrg : r ∈ g).
  { apply last_Some in Hr as [l' ->]. apply elem_of_app. right.
    by apply list_elem_of_singleton. }
  specialize (Hg x r Hx Hrg). unfold _get_table_key in Hg.
  by injection Hg.
Qed.

Lemma grouping_by_runs_witness :
  map summary (emitted (extractor_over None separated_rows))
  = [("t1", ["a"]); ("t2", ["c"]); ("t1", ["b"])].
Proof.
  assert (Hsep : _tags_separator (extractor_over None separated_rows)
                 <> Some EmptyString) by discriminate.
  exact (proj2 (proj2 (proj2
           (grouping_by_runs (extractor_over None separated_rows) Hsep)))
           None).
Defined.

(** C1, as the claim has it, fails: with the empty string as separator
    the tagged rows make two runs and no record is emitted for either;
    the first call of [extract()] raises. *)
Lemma empty_separator_yields_no_record :
  _tags_separator (extractor_over (Some EmptyString) tagged_rows)
  = Some EmptyString
  /\ map (map col_name) (groups (extractor_over (Some EmptyString) tagged_rows))
     = [["a"; "b"]; ["c"]]
  /\ emitted (extractor_over (Some EmptyString) tagged_rows) = []
  /\ fst (extract (extractor_over (Some EmptyString) tagged_rows))
     = Raise (ValueError "empty separator").
Proof. split_and!; reflexivity. Qed.

(** Every emitted record is the [TableMetadata(...)] of the last row of
    the group at its position. *)
Lemma emitted_scalars (self : Extractor) (i : nat) (t : TableMetadata) :
  emitted self !! i = Some t ->
  exists g last_row,
    groups self !! i = Some g /\ last g = Some last_row
    /\ tm_database t = database last_row
    /\ tm_cluster t = cluster last_row
    /\ tm_schema t = schema last_row
    /\ tm_name t = name last_row
    /\ tm_description t = description last_row
    /\ tm_is_view t = eq_str (is_view last_row) "true"
    /\ Ok (tm_tags t) = tags_value (_tags_separator self) (tags last_row).
Proof.
  intros Ht. destruct (emitted_lookup self i t Ht) as (g & Hg & r & Hr & Hb).
  exists g, r. apply table_of_inv in Hb as [Htags ->]. simpl.
  split_and!; done.
Qed.

(** C5. Every emitted record comes from the group at its position, and
    its database, cluster, schema, name and description are those of
    the last row of that group; [is_view] and [tags] are computed from
    the [is_view] and [tags] of that last row. *)
Theorem scalars_from_last_row (self : Extractor) (i : nat)
    (t : TableMetadata) :
  emitted self !! i = Some t ->
  exists g last_row,
    groups self !! i = Some g /\ last g = Some last_row
    /\ tm_database t = database last_row
    /\ tm_cluster t = cluster last_row
    /\ tm_schema t = schema last_row
    /\ tm_name t = name last_row
    /\ tm_description t = description last_row
    /\ tm_is_view t = eq_str (is_view last_row) "true"
    /\ Ok (tm_tags t) = tags_value (_tags_separator self) (tags last_row).
Proof. apply emitted_scalars. Qed.

Lemma scalars_from_last_row_witness :
  exists g last_row,
    groups (extractor_over None adjacent_rows) !! 0 = Some g
    /\ last g = Some last_row
    /\ "db" = database last_row
    /\ "Production" = cluster last_row
    /\ "s" = schema last_row
    /\ "t1" = name last_row
    /\ EmptyString = description last_row
    /\ false = eq_str (is_view last_row) "true"
    /\ Ok None = tags_value None (tags last_row).
Proof.
  exact (scalars_from_last_row (extractor_over None adjacent_rows) 0
           (mkTableMetadata "db" "Production" "s" "t1" EmptyString
              (map column_of (take 2 adjacent_rows)) false None)
           eq_refl).
Defined.

(** C9. No emitted record has an empty list of columns. *)
Theorem columns_nonempty (self : Extractor) :
  Forall (fun t => tm_columns t <> []) (emitted self).
Proof.
  apply Forall_lookup. intros i t Ht.
  destruct (emitted_lookup self i t Ht) as (g & _ & Hb).
  apply built_from_columns in Hb as [Hg ->]. by destruct g.
Qed.

(** C10, as the code has it. With a separator that [split] accepts
    (any but the empty string), the columns of the
    emitted records, one record after the other, are the
    [ColumnMetadata] of the rows, one row after the other. *)
Theorem columns_are_all_rows (self : Extractor) :
  _tags_separator self <> Some EmptyString ->
  concat (map tm_columns (emitted self))
  = map column_of (_get_raw_extract_iter self).
Proof.
  intros Hsep. rewrite (built_from_concat _ _ _ (emitted_all self Hsep)).
  unfold groups. by destruct (groupby_maximal_runs _get_table_key
                 (_get_raw_extract_iter self)) as [-> _].
Qed.

Lemma columns_are_all_rows_witness :
  concat (map tm_columns (emitted (extractor_over (Some ",") separated_rows)))
  = map column_of separated_rows.
Proof.
  assert (Hsep : _tags_separator (extractor_over (Some ",") separated_rows)
                 <> Some EmptyString) by discriminate.
  exact (columns_are_all_rows (extractor_over (Some ",") separated_rows) Hsep).
Defined.

(** C10, as the claim has it, fails: with the empty string as
    separator the tagged rows have three columns and the emitted
    records none. *)
Lemma empty_separator_drops_columns :
  concat (map tm_columns
            (emitted (extractor_over (Some EmptyString) tagged_rows)))
  = []
  /\ map cm_name
       (map column_of
          (_get_raw_extract_iter
             (extractor_over (Some EmptyString) tagged_rows)))
     = ["a"; "b"; "c"].
Proof. split; reflexivity. Qed.

(** Every emitted record has [is_view] true exactly when the [is_view]
    value of the last row of its group is the string ['true']. *)
Lemma is_view_iff_true_string (self : Extractor) (i : nat)
    (t : TableMetadata) :
  emitted self !! i = Some t ->
  exists g last_row,
    groups self !! i = Some g /\ last g = Some last_row
    /\ (tm_is_view t = true <-> is_view last_row = PyStr "true").
Proof.
  intros Ht.
  destruct (emitted_scalars self i t Ht)
    as (g & r & Hg & Hr & _ & _ & _ & _ & _ & Hv & _).
  exists g, r. split_and!; [done|done|]. rewrite Hv.
  destruct (is_view r) as [| | |s| | |]; simpl; try (split; done).
  rewrite String.eqb_eq. split; congruence.
Qed.

(** A row whose [is_view] value is a [bool] never gives a view. *)
Lemma is_view_of_delivered_boolean (self : Extractor) (i : nat)
    (t : TableMetadata) :
  emitted self !! i = Some t ->
  exists g last_row,
    groups self !! i = Some g /\ last g = Some last_row
    /\ forall b, is_view last_row = delivered_boolean b ->
                 tm_is_view t = false.
Proof.
  intros Ht.
  destruct (emitted_scalars self i t Ht)
    as (g & r & Hg & Hr & _ & _ & _ & _ & _ & Hv & _).
  exists g, r. split_and!; [done|done|].
  intros b Hb. by rewrite Hv, Hb.
Qed.

(** C2. The code at the row of a table of type VIEW: the query computes
    TRUE for its [is_view] column, the driver delivers [True], and the
    record is emitted with [is_view] false, because [True == 'true'] is
    false. *)
Theorem view_is_not_flagged :
  is_view_column (Some "VIEW") = true
  /\ is_view view_row = PyBool true
  /\ map tm_is_view (emitted (extractor_over None [view_row])) = [false].
Proof. split_and!; reflexivity. Qed.

(** C4, as the code has it. The tags of an emitted record are [None]
    when the tag string of the last row of its group is empty, and
    otherwise that string split on the configured separator; with the
    separator [","] the string ["x,y"] gives [["x"; "y"]]. With the
    default configuration the separator is [None], which splits on
    whitespace: a tag string is one whole tag only when it has no
    whitespace. *)
Theorem tags_from_last_row (self : Extractor) (i : nat) (t : TableMetadata) :
  emitted self !! i = Some t ->
  exists g last_row,
    groups self !! i = Some g /\ last g = Some last_row
    /\ (tags last_row = EmptyString -> tm_tags t = None)
    /\ (tags last_row <> EmptyString ->
        exists pieces,
          split (_tags_separator self) (tags last_row) = Ok pieces
          /\ tm_tags t = Some pieces)
    /\ (_tags_separator self = Some "," -> tags last_row = "x,y" ->
        tm_tags t = Some ["x"; "y"])
    /\ (_tags_separator self = tags_seperator DEFAULT_CONFIG ->
        tags last_row <> EmptyString ->
        tm_tags t = Some (split_ws EmptyString (tags last_row))
        /\ (has_space (tags last_row) = false ->
            tm_tags t = Some [tags last_row])).
Proof.
  intros Ht.
  destruct (emitted_scalars self i t Ht)
    as (g & r & Hg & Hr & _ & _ & _ & _ & _ & _ & Htags).
  exists g, r. split_and!; [done|done| | | |].
  - intros He. rewrite He, tags_value_empty in Htags. congruence.
  - intros Hne. rewrite (tags_value_nonempty _ _ Hne) in Htags.
    destruct (split (_tags_separator self) (tags r)) as [l|e]; [|done].
    exists l. simpl in Htags. split; congruence.
  - intros Hsep Hxy. rewrite Hsep, Hxy in Htags.
    change (tags_value (Some ",") "x,y") with (Ok (Some ["x"; "y"])) in Htags.
    congruence.
  - intros Hsep Hne. rewrite (tags_value_nonempty _ _ Hne), Hsep in Htags.
    simpl in Htags. injection Htags as ->. split; [done|].
    intros Hspace. by rewrite (split_ws_no_space _ EmptyString Hspace).
Qed.

Lemma tags_from_last_row_witness :
  exists g last_row,
    groups comma_extractor !! 0 = Some g /\ last g = Some last_row
    /\ (tags last_row = EmptyString -> tm_tags comma_record = None)
    /\ (tags last_row <> EmptyString ->
        exists pieces,
          split (_tags_separator comma_extractor) (tags last_row) = Ok pieces
          /\ tm_tags comma_record = Some pieces)
    /\ (_tags_separator comma_extractor = Some "," -> tags last_row = "x,y" ->
        tm_tags comma_record = Some ["x"; "y"])
    /\ (_tags_separator comma_extractor = tags_seperator DEFAULT_CONFIG ->
        tags last_row <> EmptyString ->
        tm_tags comma_record = Some (split_ws EmptyString (tags last_row))
        /\ (has_space (tags last_row) = false ->
            tm_tags comma_record = Some [tags last_row])).
Proof.
  exact (tags_from_last_row comma_extractor 0 comma_record eq_refl).
Defined.

(** C4, as the claim has it, fails: with the default configuration the
    tag string ["x y"] is not kept whole. *)
Lemma default_separator_splits :
  tags_seperator DEFAULT_CONFIG = None
  /\ map tm_tags
       (emitted (extractor_over (tags_seperator DEFAULT_CONFIG)
                   [a_row "s" "t" "c" "x y" (PyStr "false")]))
     = [Some ["x"; "y"]].
Proof. split; reflexivity. Qed.

(** C7. From a new extractor, every call of [extract()] after as many
    calls as there are groups returns [None], raises nothing, and leaves
    the extractor as it was. *)
Theorem exhaustion_is_terminal (self : Extractor) (m : nat) :
  _extract_iter self = None ->
  length (groups self) <= m ->
  fst (extract (after m self)) = Ok None
  /\ extract (snd (extract (after m self)))
     = (Ok None, snd (extract (after m self))).
Proof.
  intros Hnew Hm.
  assert (Hempty : current_iter (after m self) = []).
  { pose proof (after_length m self) as Hlen.
    unfold current_iter at 2 in Hlen. rewrite Hnew in Hlen.
    pose proof (for_groups_length (_tags_separator self) (groups self) None).
    unfold _get_extract_iter in Hlen. fold (groups self) in Hlen.
    apply nil_length_inv. lia. }
  split; [by apply extract_exhausted|].
  apply (extract_None_fixed (after m self)).
  rewrite extract_unfold, Hempty. done.
Qed.

Lemma exhaustion_is_terminal_witness :
  fst (extract (after 5 (extractor_over None adjacent_rows))) = Ok None
  /\ extract (snd (extract (after 5 (extractor_over None adjacent_rows))))
     = (Ok None, snd (extract (after 5 (extractor_over None adjacent_rows)))).
Proof.
  apply (exhaustion_is_terminal (extractor_over None adjacent_rows) 5).
  - reflexivity.
  - vm_compute. lia.
Defined.

(** ** [init] *)

Lemma append_assoc5 (a x b y c rest : string) :
  a +:+ (x +:+ (b +:+ (y +:+ (c +:+ rest))))
  = (a +:+ (x +:+ (b +:+ (y +:+ c)))) +:+ rest.
Proof. by rewrite !append_assoc. Qed.

Lemma append_assoc11 (a b c d e f g h i j k rest : string) :
  a +:+ (b +:+ (c +:+ (d +:+ (e +:+ (f +:+ (g +:+ (h +:+ (i +:+ (j +:+
    (k +:+ rest))))))))))
  = (a +:+ (b +:+ (c +:+ (d +:+ (e +:+ (f +:+ (g +:+ (h +:+ (i +:+ (j +:+
       k)))))))))) +:+ rest.
Proof. by rewrite !append_assoc. Qed.

Lemma parse_SQL_STATEMENT :
  parse_format (InLit EmptyString) SQL_STATEMENT = Ok SQL_STATEMENT_segments.
Proof. vm_compute. reflexivity. Qed.

(** C3. The WHERE statement [init] builds is, for both flags, the two
    conditions joined by AND; for [exclude_system_tables] alone, the
    condition on ['SYSTEM_TABLE']; for [exclude_pds_tables] alone, the
    condition on ['TABLE']; for neither, no condition at all. Each is
    closed by the semicolon of the statement, and [init] puts it at the
    end of the query. *)
Theorem where_stmt_by_flags :
  where_stmt true true
  = "WHERE nested_0.TABLE_TYPE != 'SYSTEM_TABLE' AND nested_0.TABLE_TYPE != 'TABLE';"
  /\ where_stmt true false = "WHERE nested_0.TABLE_TYPE != 'SYSTEM_TABLE';"
  /\ where_stmt false true = "WHERE nested_0.TABLE_TYPE != 'TABLE';"
  /\ where_stmt false false = ";"
  /\ (forall exclude_sys exclude_pds,
        where_stmt exclude_sys exclude_pds
        = where_clause (map negation (excluded_types exclude_sys exclude_pds))
          +:+ ";")
  /\ (forall conf connection,
        exists head self,
          init conf connection = Ok self
          /\ sql_stmt self
             = head
               +:+ where_stmt (exclude_system_tables conf)
                     (exclude_pds_tables conf)
               +:+ nl +:+ "    ").
Proof.
  split_and!; try reflexivity.
  - by intros [] [].
  - intros conf connection. unfold init, format.
    rewrite parse_SQL_STATEMENT. cbn [bind].
    unfold SQL_STATEMENT_segments. cbn [render].
    rewrite lookup_insert_eq.
    rewrite lookup_insert_ne, lookup_insert_eq by done.
    rewrite !lookup_insert_ne, lookup_singleton_eq by done.
    cbn [bind]. rewrite append_assoc5.
    eexists _, _. split; reflexivity.
Qed.

(** ** [get_sql_statement] *)

Lemma parse_template (e : SqlStatement) :
  parse_format (InLit EmptyString) (template_of e) = Ok (segments_of e).
Proof. destruct e; vm_compute; reflexivity. Qed.

Lemma SQL_STMT_MAPPING_member (e : SqlStatement) :
  __SQL_STMT_MAPPING (PySqlStatement e) = Ok (template_of e).
Proof. by destruct e. Qed.

(** The WHERE statement of a member, formatted with a prefix. *)
Lemma where_format (k : SqlWhereStatement) (p : string) :
  bind (__WHERE_STMT_MAPPING (PySqlWhereStatement k))
       (fun tpl => format tpl {[ "prefix" := p ]})
  = Ok (where_text k p).
Proof.
  destruct k; cbn [__WHERE_STMT_MAPPING bind]; unfold format.
  - change (parse_format _ _)
      with (Ok [Lit "WHERE "; Field "prefix"; Lit "TABLE_TYPE != 'TABLE'"]).
    cbn [bind render]. by rewrite lookup_singleton_eq.
  - change (parse_format _ _)
      with (Ok [Lit "WHERE "; Field "prefix";
                Lit "TABLE_TYPE != 'SYSTEM_TABLE'"]).
    cbn [bind render]. by rewrite lookup_singleton_eq.
  - change (parse_format _ _)
      with (Ok [Lit "WHERE "; Field "prefix"; Lit "TABLE_TYPE != 'TABLE' and ";
                Field "prefix"; Lit "TABLE_TYPE != 'SYSTEM_TABLE'"]).
    cbn [bind render]. by rewrite !lookup_singleton_eq.
  - reflexivity.
Qed.

(** Formatting a template: with all its placeholders supplied the result
    is the statement up to the WHERE statement, the WHERE statement and
    the closing semicolon; otherwise the first missing one is a
    [KeyError]. *)
Lemma format_template (e : SqlStatement) (kwargs : gmap string string) :
  (supplies kwargs e ->
   exists head,
     forall w,
       format (template_of e) (<[ "where_stmt" := w ]> kwargs)
       = Ok (head +:+ w +:+ ";" +:+ nl +:+ "    "))
  /\ (~ supplies kwargs e ->
      forall w,
        is_KeyError (format (template_of e) (<[ "where_stmt" := w ]> kwargs))).
Proof.
  unfold format, supplies. rewrite parse_template. cbn [bind].
  destruct e; cbn [segments_of placeholders render].
  - split.
    + intros Hs.
      apply Forall_cons in Hs as [[c Hc] Hs].
      apply Forall_cons in Hs as [[o Ho] _].
      eexists. intros w.
      rewrite !lookup_insert_ne, lookup_insert_eq, Hc, Ho by done.
      cbn [bind]. rewrite append_assoc5. reflexivity.
    + intros Hs w.
      rewrite !lookup_insert_ne, lookup_insert_eq by done.
      destruct (kwargs !! "cluster") as [c|] eqn:Hc; [|done].
      destruct (kwargs !! "owners") as [o|] eqn:Ho; [|done].
      destruct Hs. repeat constructor; eauto.
  - split.
    + intros Hs.
      apply Forall_cons in Hs as [[t Ht] Hs].
      apply Forall_cons in Hs as [[d Hd] Hs].
      apply Forall_cons in Hs as [[x Hx] Hs].
      apply Forall_cons in Hs as [[u Hu] Hs].
      apply Forall_cons in Hs as [[c Hc] _].
      eexists. intros w.
      rewrite !lookup_insert_ne, lookup_insert_eq, Ht, Hd, Hx, Hu, Hc by done.
      cbn [bind]. rewrite append_assoc11. reflexivity.
    + intros Hs w.
      rewrite !lookup_insert_ne, lookup_insert_eq by done.
      destruct (kwargs !! "task_id") as [t|] eqn:Ht; [|done].
      destruct (kwargs !! "dag_id") as [d|] eqn:Hd; [|done].
      destruct (kwargs !! "exec_date") as [x|] eqn:Hx; [|done].
      destruct (kwargs !! "application_url_template") as [u|] eqn:Hu; [|done].
      destruct (kwargs !! "cluster") as [c|] eqn:Hc; [|done].
      destruct Hs. repeat constructor; eauto.
Qed.

(** What [get_sql_statement] comes to once the filter kind is a member
    and the statement too. *)
Lemma get_sql_statement_members (e : SqlStatement) (k : SqlWhereStatement)
    (p : string) (where_stmt : pyval) (kwargs : gmap string string) :
  stmt_type_prefix where_stmt = Ok (PySqlWhereStatement k, p) ->
  get_sql_statement (PySqlStatement e) where_stmt kwargs
  = format (template_of e) (<[ "where_stmt" := where_text k p ]> kwargs).
Proof.
  intros Hw. unfold get_sql_statement. rewrite Hw. cbn [bind fst snd].
  pose proof (where_format k p) as Hf.
  destruct (__WHERE_STMT_MAPPING (PySqlWhereStatement k)) as [tpl|err];
    cbn [bind] in *; [|done].
  rewrite Hf. cbn [bind]. by rewrite SQL_STMT_MAPPING_member.
Qed.

Lemma stmt_type_prefix_absent :
  stmt_type_prefix PyNone = Ok (PySqlWhereStatement INCLUDE_ALL, EmptyString).
Proof. reflexivity. Qed.

Lemma stmt_type_prefix_bare (v : pyval) :
  truthy v = true -> (forall items, v <> PyTuple items) ->
  stmt_type_prefix v = Ok (v, EmptyString).
Proof.
  intros Ht Hn. unfold stmt_type_prefix. rewrite Ht.
  destruct v; try reflexivity. by destruct (Hn items).
Qed.

Lemma stmt_type_prefix_pair (v : pyval) (p : string) :
  stmt_type_prefix (PyTuple [v; PyStr p])
  = Ok (v, if decide (p = EmptyString) then EmptyString else p +:+ ".").
Proof.
  unfold stmt_type_prefix. cbn [truthy length Nat.eqb negb unpack2 bind snd fst].
  destruct p as [|c p]; [reflexivity|].
  cbn [truthy String.eqb negb iadd_str bind]. by destruct (decide _).
Qed.

(** C6. For a statement whose placeholders the keyword arguments
    supply, the result is the statement up to the WHERE statement, the
    WHERE statement and the closing semicolon, where the WHERE statement
    is: nothing when no [where_stmt] is given; that of the filter kind
    with no prefix when [where_stmt] is a filter kind; that of the
    filter kind with the prefix and a dot before the column when
    [where_stmt] is a pair with a non-empty prefix. The pair
    (EXCLUDE_PDS_TABLES, "t") gives [WHERE t.TABLE_TYPE != 'TABLE'], and
    TABLE_OWNER_INIT with no [where_stmt], cluster "C" and owners "O"
    has both literals and no WHERE. *)
Theorem where_statement_rendering (e : SqlStatement)
    (kwargs : gmap string string) :
  supplies kwargs e ->
  exists head,
    get_sql_statement (PySqlStatement e) PyNone kwargs
    = Ok (head +:+ EmptyString +:+ ";" +:+ nl +:+ "    ")
    /\ (forall k,
          get_sql_statement (PySqlStatement e) (PySqlWhereStatement k) kwargs
          = Ok (head +:+ where_text k EmptyString +:+ ";" +:+ nl +:+ "    "))
    /\ (forall k prefix,
          prefix <> EmptyString ->
          get_sql_statement (PySqlStatement e)
            (PyTuple [PySqlWhereStatement k; PyStr prefix]) kwargs
          = Ok (head +:+ where_text k (prefix +:+ ".")
                +:+ ";" +:+ nl +:+ "    "))
    /\ where_text EXCLUDE_PDS_TABLES ("t" +:+ ".")
       = "WHERE t.TABLE_TYPE != 'TABLE'"
    /\ (exists out,
          get_sql_statement (PySqlStatement TABLE_OWNER_INIT) PyNone
            {[ "cluster" := "C"; "owners" := "O" ]} = Ok out
          /\ contains "WHERE" out = false
          /\ contains "'C' as cluster" out = true
          /\ contains "'O' AS owners" out = true).
Proof.
  intros Hs. destruct (format_template e kwargs) as [Hok _].
  destruct (Hok Hs) as [head Hhead]. exists head. split_and!.
  - rewrite (get_sql_statement_members e INCLUDE_ALL EmptyString)
      by apply stmt_type_prefix_absent.
    apply Hhead.
  - intros k.
    rewrite (get_sql_statement_members e k EmptyString)
      by (by apply stmt_type_prefix_bare).
    apply Hhead.
  - intros k prefix Hp.
    rewrite (get_sql_statement_members e k (prefix +:+ ".")).
    + apply Hhead.
    + rewrite stmt_type_prefix_pair. by destruct (decide _).
  - reflexivity.
  - eexists. split; [vm_compute; reflexivity|]. split_and!; vm_compute; reflexivity.
Qed.

Lemma where_statement_rendering_witness :
  exists head,
    get_sql_statement (PySqlStatement TABLE_OWNER_INIT)
      (PyTuple [PySqlWhereStatement EXCLUDE_PDS_TABLES; PyStr "t"])
      {[ "cluster" := "C"; "owners" := "O" ]}
    = Ok (head +:+ "WHERE t.TABLE_TYPE != 'TABLE'" +:+ ";" +:+ nl +:+ "    ").
Proof.
  assert (Hs : supplies {[ "cluster" := "C"; "owners" := "O" ]}
                 TABLE_OWNER_INIT).
  { repeat constructor; eexists; vm_compute; reflexivity. }
  destruct (where_statement_rendering TABLE_OWNER_INIT
              {[ "cluster" := "C"; "owners" := "O" ]} Hs)
    as (head & _ & _ & Hpair & _).
  exists head. apply (Hpair EXCLUDE_PDS_TABLES "t"). discriminate.
Defined.

Lemma supplied_kind_prefix (where_stmt kind : pyval) :
  supplied_kind where_stmt = Some kind ->
  exists p, stmt_type_prefix where_stmt = Ok (kind, p).
Proof.
  unfold supplied_kind. destruct (truthy where_stmt) eqn:Ht; [|done].
  destruct where_stmt as [| | | | | |items]; cbn beta iota;
    try (intros [= <-]; eexists; apply stmt_type_prefix_bare;
         [exact Ht|discriminate]).
  destruct items as [|a [|b rest]]; try discriminate.
  destruct b; try discriminate; destruct rest; try discriminate.
  intros [= <-]. eexists. apply stmt_type_prefix_pair.
Qed.

Lemma false_where_stmt_prefix (where_stmt : pyval) :
  truthy where_stmt = false ->
  stmt_type_prefix where_stmt
  = Ok (PySqlWhereStatement INCLUDE_ALL, EmptyString).
Proof. intros Ht. unfold stmt_type_prefix. by rewrite Ht. Qed.

(** A missing placeholder is a [KeyError] for the first one missing. *)
Lemma format_first_missing (e : SqlStatement) (kwargs : gmap string string)
    (field w : string) :
  first_missing kwargs e = Some field ->
  format (template_of e) (<[ "where_stmt" := w ]> kwargs)
  = Raise (KeyError (PyStr field)).
Proof.
  unfold format, first_missing. rewrite parse_template. cbn [bind].
  destruct e; cbn [segments_of placeholders render find];
    rewrite !lookup_insert_eq, !lookup_insert_ne by done.
  - destruct (kwargs !! "cluster"); [|by intros [= <-]].
    destruct (kwargs !! "owners"); [done|by intros [= <-]].
  - destruct (kwargs !! "task_id"); [|by intros [= <-]].
    destruct (kwargs !! "dag_id"); [|by intros [= <-]].
    destruct (kwargs !! "exec_date"); [|by intros [= <-]].
    destruct (kwargs !! "application_url_template"); [|by intros [= <-]].
    destruct (kwargs !! "cluster"); [done|by intros [= <-]].
Qed.

Lemma supplies_or_missing (e : SqlStatement) (kwargs : gmap string string) :
  supplies kwargs e \/ exists field, first_missing kwargs e = Some field.
Proof.
  unfold supplies, first_missing.
  induction (placeholders e) as [|f fs IH]; [left; constructor|].
  cbn [find]. destruct (kwargs !! f) as [v|] eqn:Hf; [|right; eauto].
  destruct IH as [IH|IH]; [|by right]. left. constructor; [eauto|done].
Qed.

(** C8, as the code has it. For a [where_stmt] that is true,
    [get_sql_statement] raises [KeyError] for the filter kind when the
    filter kind, which is the [where_stmt] itself or the first item of
    a pair with a string prefix, is no member of [SqlWhereStatement].
    When the filter kind is a member, or the [where_stmt] is false and
    so no filter, it raises [KeyError] for the statement when the
    statement is no member of [SqlStatement]; and when the statement is
    a member it returns the statement if the keyword arguments supply
    every placeholder of the template, and otherwise raises [KeyError]
    for the first placeholder that is missing. *)
Theorem get_sql_statement_KeyError (sql_stmt_enum where_stmt : pyval)
    (kwargs : gmap string string) :
  (forall kind,
     supplied_kind where_stmt = Some kind ->
     (forall k, kind <> PySqlWhereStatement k) ->
     get_sql_statement sql_stmt_enum where_stmt kwargs = Raise (KeyError kind))
  /\ (truthy where_stmt = false
      \/ (exists k, supplied_kind where_stmt = Some (PySqlWhereStatement k)) ->
      ((forall e, sql_stmt_enum <> PySqlStatement e) ->
       get_sql_statement sql_stmt_enum where_stmt kwargs
       = Raise (KeyError sql_stmt_enum))
      /\ (forall e,
            sql_stmt_enum = PySqlStatement e ->
            (supplies kwargs e ->
             exists out,
               get_sql_statement sql_stmt_enum where_stmt kwargs = Ok out)
            /\ (forall field,
                  first_missing kwargs e = Some field ->
                  get_sql_statement sql_stmt_enum where_stmt kwargs
                  = Raise (KeyError (PyStr field)))
            /\ (supplies kwargs e
                \/ exists field, first_missing kwargs e = Some field))).
Proof.
  split.
  - intros kind Hkind Hno.
    destruct (supplied_kind_prefix _ _ Hkind) as [p Hp].
    unfold get_sql_statement. rewrite Hp. cbn [bind fst snd].
    destruct kind; try reflexivity. by destruct (Hno e).
  - intros Hmember.
    assert (Hp : exists k p,
               stmt_type_prefix where_stmt = Ok (PySqlWhereStatement k, p)).
    { destruct Hmember as [Hfalse|[k Hk]].
      - exists INCLUDE_ALL, EmptyString. by apply false_where_stmt_prefix.
      - destruct (supplied_kind_prefix _ _ Hk) as [p Hp]. by exists k, p. }
    destruct Hp as (k & p & Hp). split.
    + intros Hno. unfold get_sql_statement. rewrite Hp.
      cbn [bind fst snd]. pose proof (where_format k p) as Hf.
      destruct (__WHERE_STMT_MAPPING (PySqlWhereStatement k)) as [tpl|err];
        cbn [bind] in *; [|done].
      rewrite Hf. cbn [bind].
      destruct sql_stmt_enum; try reflexivity. by destruct (Hno e).
    + intros e ->. rewrite (get_sql_statement_members e k p) by done.
      split_and!.
      * intros Hs. destruct (format_template e kwargs) as [Hok _].
        destruct (Hok Hs) as [head ->]. eauto.
      * intros field Hfield. by apply format_first_missing.
      * apply supplies_or_missing.
Qed.

Lemma get_sql_statement_KeyError_witness :
  get_sql_statement (PyStr "no statement")
    (PyTuple [PyStr "no filter"; PyStr "t"]) ∅
  = Raise (KeyError (PyStr "no filter"))
  /\ get_sql_statement (PyStr "no statement") (PyInt 0) ∅
     = Raise (KeyError (PyStr "no statement"))
  /\ (exists out,
        get_sql_statement (PySqlStatement TABLE_OWNER_INIT)
          (PySqlWhereStatement EXCLUDE_SYS_TABLES)
          {[ "cluster" := "C"; "owners" := "O" ]} = Ok out)
  /\ get_sql_statement (PySqlStatement TABLE_OWNER_INIT)
       (PySqlWhereStatement EXCLUDE_SYS_TABLES) {[ "cluster" := "C" ]}
     = Raise (KeyError (PyStr "owners")).
Proof.
  split; [|split; [|split]].
  - destruct (get_sql_statement_KeyError (PyStr "no statement")
                (PyTuple [PyStr "no filter"; PyStr "t"]) ∅) as [Hkind _].
    apply (Hkind (PyStr "no filter")); [reflexivity|discriminate].
  - destruct (get_sql_statement_KeyError (PyStr "no statement") (PyInt 0) ∅)
      as [_ Hstmt].
    destruct (Hstmt (or_introl eq_refl)) as [Hno _].
    apply Hno. discriminate.
  - destruct (get_sql_statement_KeyError (PySqlStatement TABLE_OWNER_INIT)
                (PySqlWhereStatement EXCLUDE_SYS_TABLES)
                {[ "cluster" := "C"; "owners" := "O" ]}) as [_ Hstmt].
    destruct Hstmt as [_ Hmem].
    { right. by exists EXCLUDE_SYS_TABLES. }
    destruct (Hmem TABLE_OWNER_INIT eq_refl) as (Hok & _ & _).
    apply Hok. repeat constructor; eexists; vm_compute; reflexivity.
  - destruct (get_sql_statement_KeyError (PySqlStatement TABLE_OWNER_INIT)
                (PySqlWhereStatement EXCLUDE_SYS_TABLES)
                {[ "cluster" := "C" ]}) as [_ Hstmt].
    destruct Hstmt as [_ Hmem].
    { right. by exists EXCLUDE_SYS_TABLES. }
    destruct (Hmem TABLE_OWNER_INIT eq_refl) as (_ & Hmiss & _).
    apply Hmiss. vm_compute. reflexivity.
Defined.

(** C8, as the claim has it, fails: with a member of each enumeration
    and no keyword argument the call raises [KeyError]; with [0], which
    is no filter kind, as [where_stmt] it raises nothing; and with a
    filter kind that is no member in a pair whose prefix is [None] it
    raises [TypeError]. *)
Lemma members_without_arguments_raise :
  get_sql_statement (PySqlStatement TABLE_OWNER_INIT)
    (PySqlWhereStatement EXCLUDE_PDS_TABLES) ∅
  = Raise (KeyError (PyStr "cluster"))
  /\ is_Ok (get_sql_statement (PySqlStatement TABLE_OWNER_INIT) (PyInt 0)
              {[ "cluster" := "C"; "owners" := "O" ]})
  /\ get_sql_statement (PySqlStatement TABLE_OWNER_INIT)
       (PyTuple [PyStr "no filter"; PyNone])
       {[ "cluster" := "C"; "owners" := "O" ]}
     = Raise (TypeError "unsupported operand type(s) for +=").
Proof. split_and!; vm_compute; done. Qed.

(** ** Checks on concrete inputs *)

Example split_comma : split (Some ",") "x,y" = Ok ["x"; "y"].
Proof. reflexivity. Qed.

Example split_long_separator :
  split (Some "--") "a--b-c----" = Ok ["a"; "b-c"; EmptyString; EmptyString].
Proof. reflexivity. Qed.

Example split_whitespace : split None "  x  y z " = Ok ["x"; "y"; "z"].
Proof. reflexivity. Qed.

Example split_empty_separator :
  split (Some EmptyString) "x" = Raise (ValueError "empty separator").
Proof. reflexivity. Qed.

Example format_braces :
  format "a{x}b{{c}}{y}" {[ "x" := "1"; "y" := "2" ]} = Ok "a1b{c}2".
Proof. vm_compute. reflexivity. Qed.

Example groupby_runs :
  groupby (fun n : nat => Nat.even n) [2; 4; 1; 3; 6; 5]
  = [[2; 4]; [1; 3]; [6]; [5]].
Proof. reflexivity. Qed.

(** A driver that delivers the SQL boolean as a Python [bool] never
    gives a view. *)
Example is_view_of_bool (b : bool) :
  map tm_is_view
    (emitted (extractor_over None [a_row "s" "v" "c" EmptyString (PyBool b)]))
  = [false].
Proof. reflexivity. Qed.

(** With the empty separator the first tagged group raises and the
    extractor is exhausted afterwards. *)
Example empty_separator_raises :
  fst (extract (extractor_over (Some EmptyString)
                  [a_row "s" "t" "c" "x" (PyStr "false")]))
  = Raise (ValueError "empty separator")
  /\ fst (extract (after 1 (extractor_over (Some EmptyString)
                              [a_row "s" "t" "c" "x" (PyStr "false")])))
     = Ok None.
Proof. split; reflexivity. Qed.

(** The first calls of [extract()] return the emitted records. *)
Example extract_adjacent_rows :
  map (fun n => fst (extract (after n (extractor_over None adjacent_rows))))
      [0; 1; 2; 3]
  = map (fun t => Ok (Some t)) (emitted (extractor_over None adjacent_rows))
    ++ [Ok None; Ok None].
Proof. reflexivity. Qed.

(** * Further properties *)

(** ** Calls of [extract()] and the generator *)

Lemma for_groups_ends_at_raise (sep : option string) (G : list (list Row)) :
  forall lr, ends_at_raise (for_groups sep lr G).
Proof.
  induction G as [|g G IH]; intros lr i e; simpl; [done|].
  destruct (fst _) as [r|]; [|by destruct i as [|[|i]]].
  destruct (table_of sep r _) as [t|e']; [|by destruct i as [|[|i]]].
  destruct i as [|i]; [done|]. simpl. intros Hi. f_equal. by eapply IH.
Qed.

Lemma next_outcome (g : generator) :
  ends_at_raise g ->
  ends_at_raise (snd (next g))
  /\ (match fst (next g) with
      | Yielded t => Ok (Some t)
      | StopIteration => Ok None
      | Raised e => Raise e
      end = outcome_at g 0)
  /\ forall i, outcome_at (snd (next g)) i = outcome_at g (S i).
Proof.
  intros Hg. destruct g as [|[t|e] g]; simpl.
  - done.
  - split_and!; [|done|done]. intros i e Hi.
    specialize (Hg (S i) e Hi). simpl in Hg. lia.
  - split_and!; [done|done|]. intros i. unfold outcome_at. simpl.
    specialize (Hg 0 e eq_refl). destruct g; [|done]. by destruct i.
Qed.

(** The call with number [i] returns what the generator has at [i]. *)
Lemma extract_outcome (i : nat) :
  forall self,
    ends_at_raise (current_iter self) ->
    fst (extract (after i self)) = outcome_at (current_iter self) i.
Proof.
  induction i as [|i IH]; intros self Hg.
  - change (after 0 self) with self. rewrite extract_unfold.
    by destruct (next_outcome _ Hg) as (_ & -> & _).
  - change (after (S i) self) with (after i (snd (extract self))).
    destruct (next_outcome _ Hg) as (Hg' & _ & Hshift).
    rewrite IH, current_iter_extract; [apply Hshift|].
    by rewrite current_iter_extract.
Qed.

Lemma yielded_all_ok (g : generator) :
  length (yielded g) = length g -> g = map Ok (yielded g).
Proof.
  induction g as [|[t|e] g IH]; simpl; [done| |done].
  intros [= Hlen]. by rewrite <- IH.
Qed.

Lemma outcome_at_all_ok (Y : list TableMetadata) (i : nat) :
  outcome_at (map Ok Y) i = Ok (Y !! i).
Proof.
  unfold outcome_at. revert i.
  induction Y as [|t Y IH]; intros [|i]; simpl; done.
Qed.

(** X1. From a new extractor whose separator [split] accepts, the call
    of [extract()] with number [i] returns the record emitted at
    position [i] and [None] when there is none; there is one record per
    group, and no call raises. *)
Theorem extract_returns_emitted (self : Extractor) (i : nat) :
  _extract_iter self = None ->
  _tags_separator self <> Some EmptyString ->
  fst (extract (after i self)) = Ok (emitted self !! i)
  /\ length (emitted self) = length (groups self).
Proof.
  intros Hnew Hsep.
  assert (Hlen : length (emitted self) = length (groups self)).
  { apply for_groups_total; [done|apply groups_nonempty]. }
  split; [|done].
  rewrite extract_outcome.
  - unfold current_iter. rewrite Hnew.
    assert (Hall : _get_extract_iter self = map Ok (emitted self)).
    { apply yielded_all_ok. fold (emitted self). rewrite Hlen.
      pose proof (for_groups_length (_tags_separator self) (groups self) None)
        as Hle.
      pose proof (for_groups_yielded (_tags_separator self) (groups self)
                    (groups_nonempty self) None) as Hy.
      apply Forall2_length in Hy. unfold _get_extract_iter.
      fold (groups self). unfold emitted, _get_extract_iter in Hlen.
      fold (groups self) in Hlen.
      assert (length (yielded (for_groups (_tags_separator self) None
                                 (groups self)))
              <= length (for_groups (_tags_separator self) None (groups self))).
      { generalize (for_groups (_tags_separator self) None (groups self)).
        intros l. induction l as [|[t|e] l IHl]; simpl; lia. }
      lia. }
    rewrite Hall. apply outcome_at_all_ok.
  - unfold current_iter. rewrite Hnew. apply for_groups_ends_at_raise.
Qed.

Lemma extract_returns_emitted_witness :
  fst (extract (after 1 (extractor_over None adjacent_rows)))
  = Ok (emitted (extractor_over None adjacent_rows) !! 1)
  /\ length (emitted (extractor_over None adjacent_rows))
     = length (groups (extractor_over None adjacent_rows)).
Proof.
  assert (Hsep : _tags_separator (extractor_over None adjacent_rows)
                 <> Some EmptyString) by discriminate.
  exact (extract_returns_emitted (extractor_over None adjacent_rows) 1
           eq_refl Hsep).
Defined.

(** X2. Once a call of [extract()] has raised, every later call returns
    [None]: the groups after the failing one are never returned. *)
Theorem raise_ends_extraction (self : Extractor) (e : exn) (m : nat) :
  fst (extract self) = Raise e ->
  fst (extract (after m (snd (extract self)))) = Ok None.
Proof.
  intros Hraise. apply extract_exhausted.
  assert (Hempty : current_iter (snd (extract self)) = []).
  { rewrite current_iter_extract. rewrite extract_unfold in Hraise.
    simpl in Hraise.
    destruct (current_iter self) as [|[t|e'] g]; simpl in *; done. }
  pose proof (after_length m (snd (extract self))) as Hlen.
  rewrite Hempty in Hlen. cbn [length] in Hlen. apply nil_length_inv. lia.
Qed.

Lemma raise_ends_extraction_witness :
  fst (extract (after 3 (snd (extract
         (extractor_over (Some EmptyString)
            [a_row "s" "t" "c" "x" (PyStr "false");
             a_row "s" "u" "d" "y" (PyStr "false")])))))
  = Ok None.
Proof.
  exact (raise_ends_extraction
           (extractor_over (Some EmptyString)
              [a_row "s" "t" "c" "x" (PyStr "false");
               a_row "s" "u" "d" "y" (PyStr "false")])
           (ValueError "empty separator") 3 eq_refl).
Defined.

Lemma for_groups_empty_separator (G : list (list Row)) :
  Forall (fun g => g <> []) G ->
  forall i lr g r,
    G !! i = Some g -> last g = Some r -> tags r <> EmptyString ->
    (forall j g' r',
       j < i -> G !! j = Some g' -> last g' = Some r' ->
       tags r' = EmptyString) ->
    exists ts,
      length ts = i
      /\ for_groups (Some EmptyString) lr G
         = map Ok ts ++ [Raise (ValueError "empty separator")].
Proof.
  induction 1 as [|g0 G Hg0 _ IH]; intros i lr g r Hi Hr Htags Hbefore;
    [done|].
  destruct (last_nonempty g0 Hg0) as [r0 Hr0].
  rewrite (for_groups_cons _ _ _ _ r0 Hr0). unfold table_of.
  destruct i as [|i]; simpl in Hi.
  - injection Hi as ->. assert (r0 = r) as -> by congruence.
    rewrite (tags_value_nonempty _ _ Htags). by exists [].
  - rewrite (Hbefore 0 g0 r0), tags_value_empty by (done || lia).
    cbn [bind].
    destruct (IH i (Some r0) g r Hi Hr Htags) as (ts & Hlen & ->).
    { intros j g' r' Hj. apply (Hbefore (S j)). lia. }
    eexists (_ :: ts). split; [simpl; by rewrite Hlen|done].
Qed.

Lemma yielded_before_raise (ts : list TableMetadata) (e : exn) :
  yielded (map Ok ts ++ [Raise e]) = ts.
Proof. induction ts as [|t ts IH]; simpl; [done|]. by rewrite IH. Qed.

Lemma lookup_before_raise (ts : list TableMetadata) (e : exn) (j : nat) :
  outcome_at (map Ok ts ++ [Raise e]) j
  = match ts !! j with
    | Some t => Ok (Some t)
    | None => if decide (j = length ts) then Raise e else Ok None
    end.
Proof.
  unfold outcome_at. revert j.
  induction ts as [|t ts IH]; intros [|j]; simpl; try done.
  rewrite IH. destruct (ts !! j); [done|].
  destruct (decide (j = length ts)), (decide (S j = S (length ts)));
    done || lia.
Qed.

(** X3. With the empty string as separator, the call for the first
    group whose last row has a tag string raises [ValueError]; the
    groups before it are returned, one record each, by the calls before
    it, and that group and the ones after it never are: nothing more is
    emitted and every later call returns [None]. *)
Theorem empty_separator_raises_at (self : Extractor) (i : nat)
    (g : list Row) (r : Row) :
  _extract_iter self = None ->
  _tags_separator self = Some EmptyString ->
  groups self !! i = Some g -> last g = Some r ->
  tags r <> EmptyString ->
  (forall j g' r',
     j < i -> groups self !! j = Some g' -> last g' = Some r' ->
     tags r' = EmptyString) ->
  length (emitted self) = i
  /\ (forall j,
        j < i ->
        exists g' t,
          groups self !! j = Some g' /\ emitted self !! j = Some t
          /\ built_from (Some EmptyString) g' t
          /\ fst (extract (after j self)) = Ok (Some t))
  /\ fst (extract (after i self)) = Raise (ValueError "empty separator")
  /\ forall m, i < m -> fst (extract (after m self)) = Ok None.
Proof.
  intros Hnew Hsep Hg Hr Htags Hbefore.
  destruct (for_groups_empty_separator _ (groups_nonempty self) i None g r
              Hg Hr Htags Hbefore) as (ts & Hlen & Hshape).
  assert (Hiter : current_iter self
                  = map Ok ts ++ [Raise (ValueError "empty separator")]).
  { unfold current_iter. rewrite Hnew. unfold _get_extract_iter.
    rewrite Hsep. exact Hshape. }
  assert (Hends : ends_at_raise (current_iter self)).
  { unfold current_iter. rewrite Hnew. apply for_groups_ends_at_raise. }
  assert (Hemitted : emitted self = ts).
  { unfold emitted, _get_extract_iter. rewrite Hsep. fold (groups self).
    rewrite Hshape. apply yielded_before_raise. }
  split_and!.
  - by rewrite Hemitted.
  - intros j Hj.
    destruct (lookup_lt_is_Some_2 ts j) as [t Ht]; [lia|].
    assert (Hej : emitted self !! j = Some t) by (by rewrite Hemitted).
    destruct (emitted_lookup self j t Hej) as (g' & Hg' & Hb).
    rewrite Hsep in Hb. exists g', t. split_and!; [done|done|done|].
    rewrite extract_outcome, Hiter, lookup_before_raise by done.
    by rewrite Ht.
  - rewrite extract_outcome, Hiter, lookup_before_raise by done.
    rewrite lookup_ge_None_2 by lia. by rewrite decide_True.
  - intros m Hm. rewrite extract_outcome, Hiter, lookup_before_raise by done.
    rewrite lookup_ge_None_2 by lia. by rewrite decide_False by lia.
Qed.

Lemma empty_separator_raises_at_witness :
  length (emitted
            (extractor_over (Some EmptyString)
               [a_row "s" "t" "c" EmptyString (PyStr "false");
                a_row "s" "u" "d" "y" (PyStr "false");
                a_row "s" "v" "e" EmptyString (PyStr "false")])) = 1
  /\ fst (extract (after 1
            (extractor_over (Some EmptyString)
               [a_row "s" "t" "c" EmptyString (PyStr "false");
                a_row "s" "u" "d" "y" (PyStr "false");
                a_row "s" "v" "e" EmptyString (PyStr "false")])))
     = Raise (ValueError "empty separator").
Proof.
  destruct (empty_separator_raises_at
              (extractor_over (Some EmptyString)
                 [a_row "s" "t" "c" EmptyString (PyStr "false");
                  a_row "s" "u" "d" "y" (PyStr "false");
                  a_row "s" "v" "e" EmptyString (PyStr "false")])
              1 [a_row "s" "u" "d" "y" (PyStr "false")]
              (a_row "s" "u" "d" "y" (PyStr "false"))
              eq_refl eq_refl eq_refl eq_refl)
    as (Hlen & _ & Hraise & _).
  - discriminate.
  - intros [|j] g' r' Hj Hg' Hr'; [|lia].
    injection Hg' as <-. injection Hr' as <-. reflexivity.
  - split; [exact Hlen|exact Hraise].
Defined.

Lemma last_elem_of {A} (g : list A) (r : A) : last g = Some r -> r ∈ g.
Proof.
  intros Hr. apply last_Some in Hr as [l' ->]. apply elem_of_app. right.
  by apply list_elem_of_singleton.
Qed.

(** X4. Two records emitted one after the other are never for the same
    (schema, name). *)
Theorem adjacent_records_differ (self : Extractor) (i : nat)
    (t1 t2 : TableMetadata) :
  emitted self !! i = Some t1 -> emitted self !! S i = Some t2 ->
  (tm_schema t1, tm_name t1) <> (tm_schema t2, tm_name t2).
Proof.
  intros H1 H2.
  destruct (emitted_scalars self i t1 H1)
    as (g1 & r1 & Hg1 & Hr1 & _ & _ & Hs1 & Hn1 & _).
  destruct (emitted_scalars self (S i) t2 H2)
    as (g2 & r2 & Hg2 & Hr2 & _ & _ & Hs2 & Hn2 & _).
  destruct (groupby_maximal_runs _get_table_key (_get_raw_extract_iter self))
    as (_ & _ & _ & Hbreaks).
  pose proof (breaks_lookup _ _ Hbreaks i g1 g2 r1 r2 Hg1 Hg2
                (last_elem_of _ _ Hr1) (last_elem_of _ _ Hr2)) as Hne.
  intros Heq. apply Hne. unfold _get_table_key.
  rewrite <- Hs1, <- Hn1, <- Hs2, <- Hn2. by injection Heq as -> ->.
Qed.

Lemma adjacent_records_differ_witness :
  ("s", "t1") <> ("s", "t2").
Proof.
  exact (adjacent_records_differ (extractor_over None adjacent_rows) 0
           (mkTableMetadata "db" "Production" "s" "t1" EmptyString
              (map column_of (take 2 adjacent_rows)) false None)
           (mkTableMetadata "db" "Production" "s" "t2" EmptyString
              (map column_of (drop 2 adjacent_rows)) false None)
           eq_refl eq_refl).
Defined.

Lemma groupby_from_one_key {A K} `{EqDecision K} (key : A -> K) (k : K)
    (l : list A) :
  Forall (fun x => key x = k) l ->
  forall cur, groupby_from key k cur l = [cur ++ l].
Proof.
  induction 1 as [|x l Hx _ IH]; intros cur; simpl.
  - by rewrite app_nil_r.
  - rewrite decide_True by done. by rewrite IH, <- app_assoc.
Qed.

(** X5. When all rows have the (schema, name) of the first one and the
    separator is one [split] accepts, exactly one record is emitted, and
    its columns are those of all rows. *)
Theorem one_table_one_record (self : Extractor) (r0 : Row) (rest : list Row) :
  _tags_separator self <> Some EmptyString ->
  _get_raw_extract_iter self = r0 :: rest ->
  Forall (fun r => schema r = schema r0 /\ name r = name r0) rest ->
  exists t,
    emitted self = [t]
    /\ tm_columns t = map column_of (r0 :: rest)
    /\ tm_schema t = schema r0 /\ tm_name t = name r0.
Proof.
  intros Hsep Hrows Hsame.
  assert (Hgroups : groups self = [r0 :: rest]).
  { unfold groups. rewrite Hrows. simpl.
    rewrite (groupby_from_one_key _ (_get_table_key r0)); [done|].
    eapply Forall_impl; [exact Hsame|]. intros r [Hs Hn].
    unfold _get_table_key. by rewrite Hs, Hn. }
  pose proof (emitted_all self Hsep) as Hall. rewrite Hgroups in Hall.
  inversion Hall as [|g t G Y Hb Hrest]; subst.
  inversion Hrest; subst. exists t. split; [done|].
  destruct Hb as (r & Hr & Ht). apply table_of_inv in Ht as [_ ->]. simpl.
  split; [done|].
  apply last_elem_of in Hr. apply elem_of_cons in Hr as [->|Hin]; [done|].
  rewrite Forall_forall in Hsame. by apply Hsame.
Qed.

Lemma one_table_one_record_witness :
  exists t,
    emitted (extractor_over None (take 2 adjacent_rows)) = [t]
    /\ tm_columns t = map column_of (take 2 adjacent_rows)
    /\ tm_schema t = "s" /\ tm_name t = "t1".
Proof.
  assert (Hsep : _tags_separator (extractor_over None (take 2 adjacent_rows))
                 <> Some EmptyString) by discriminate.
  apply (one_table_one_record (extractor_over None (take 2 adjacent_rows))
           (a_row "s" "t1" "a" EmptyString (PyStr "false"))
           [a_row "s" "t1" "b" EmptyString (PyStr "false")] Hsep eq_refl).
  repeat constructor.
Defined.

(** ** The tags of a record *)

Lemma has_space_snoc (cur : string) (c : ascii) :
  has_space cur = false -> isspace c = false ->
  has_space (cur +:+ String c EmptyString) = false.
Proof.
  intros Hcur Hc. induction cur as [|a cur IH].
  - change (has_space (String c EmptyString) = false). simpl. by rewrite Hc.
  - simpl in Hcur. apply orb_false_iff in Hcur as [Ha Hcur].
    rewrite append_cons. simpl. by rewrite Ha, IH.
Qed.

Lemma split_ws_pieces (s : string) :
  forall cur,
    has_space cur = false ->
    Forall (fun p => p <> EmptyString /\ has_space p = false) (split_ws cur s).
Proof.
  induction s as [|c s IH]; intros cur Hcur; simpl.
  - destruct (decide (cur = EmptyString)); repeat constructor; done.
  - destruct (isspace c) eqn:Hc.
    + destruct (decide (cur = EmptyString)); [by apply IH|].
      constructor; [done|by apply IH].
    + apply IH. by apply has_space_snoc.
Qed.

(** X6. With the default separator [None] no tag of an emitted record
    is empty and none has whitespace in it. *)
Theorem default_tags_have_no_whitespace (self : Extractor) (i : nat)
    (t : TableMetadata) (tgs : list string) :
  emitted self !! i = Some t ->
  _tags_separator self = tags_seperator DEFAULT_CONFIG ->
  tm_tags t = Some tgs ->
  Forall (fun p => p <> EmptyString /\ has_space p = false) tgs.
Proof.
  intros Ht Hsep Htgs.
  destruct (emitted_scalars self i t Ht)
    as (g & r & _ & _ & _ & _ & _ & _ & _ & _ & Htags).
  rewrite Hsep, Htgs in Htags. unfold tags_value in Htags.
  destruct (truthy (PyStr (tags r))); [|done].
  simpl in Htags. injection Htags as ->. by apply split_ws_pieces.
Qed.

Lemma default_tags_have_no_whitespace_witness :
  Forall (fun p => p <> EmptyString /\ has_space p = false) ["x"; "y"].
Proof.
  exact (default_tags_have_no_whitespace
           (extractor_over None [a_row "s" "t" "c" " x  y " (PyStr "false")])
           0
           (mkTableMetadata "db" "Production" "s" "t" EmptyString
              [column_of (a_row "s" "t" "c" " x  y " (PyStr "false"))]
              false (Some ["x"; "y"]))
           ["x"; "y"] eq_refl eq_refl eq_refl).
Defined.

Lemma prefix_append (p s : string) :
  String.prefix p s = true -> exists rest, s = p +:+ rest.
Proof.
  revert s. induction p as [|a p IH]; intros s Hp.
  - by exists s.
  - destruct s as [|b s]; [done|].
    change (String.prefix (String a p) (String b s))
      with (if ascii_dec a b then String.prefix p s else false) in Hp.
    destruct (ascii_dec a b) as [->|]; [|done].
    destruct (IH s Hp) as [rest ->]. by exists rest.
Qed.

Lemma length_append (s1 s2 : string) :
  String.length (s1 +:+ s2) = String.length s1 + String.length s2.
Proof.
  induction s1 as [|c s1 IH]; [done|]. rewrite append_cons. simpl.
  by rewrite IH.
Qed.

(** The characters of a separator just found are dropped. *)
Lemma split_sep_skip (sep d : string) :
  forall cur rest,
    split_sep sep (String.length d) cur (d +:+ rest)
    = split_sep sep 0 cur rest.
Proof.
  induction d as [|c d IH]; intros cur rest; [done|].
  rewrite append_cons. simpl. apply IH.
Qed.

Lemma split_sep_join (sep : string) (n : nat) :
  sep <> EmptyString ->
  forall s cur,
    String.length s <= n ->
    split_sep sep 0 cur s <> []
    /\ join sep (split_sep sep 0 cur s) = cur +:+ s.
Proof.
  intros Hsep. induction n as [|n IH]; intros s cur Hn.
  - destruct s; [|simpl in Hn; lia]. simpl. by rewrite append_nil_r.
  - destruct s as [|c s]; [simpl; by rewrite append_nil_r|].
    simpl in Hn. cbn [split_sep].
    destruct (String.prefix sep (String c s)) eqn:Hp.
    + apply prefix_append in Hp as [rest Hrest].
      destruct sep as [|c0 sep']; [done|].
      rewrite append_cons in Hrest. injection Hrest as -> ->.
      replace (String.length (String c0 sep') - 1) with (String.length sep')
        by (simpl; lia).
      rewrite split_sep_skip.
      destruct (IH rest EmptyString) as [Hne Hjoin].
      { rewrite length_append in Hn. lia. }
      split; [done|]. cbn [join].
      destruct (split_sep (String c0 sep') 0 EmptyString rest) as [|p ps] eqn:Hs;
        [done|].
      rewrite Hjoin, append_nil_l, <- append_cons. done.
    + destruct (IH s (cur +:+ String c EmptyString)) as [Hne Hjoin]; [lia|].
      split; [done|].
      by rewrite Hjoin, append_assoc, append_cons, append_nil_l.
Qed.

(** X7. With a non-empty separator the tags of an emitted record whose
    last row has a tag string are at least one, and joined by the
    separator they give the tag string back. *)
Theorem tags_join_to_tag_string (self : Extractor) (i : nat)
    (t : TableMetadata) (sep : string) :
  emitted self !! i = Some t ->
  _tags_separator self = Some sep -> sep <> EmptyString ->
  exists g last_row,
    groups self !! i = Some g /\ last g = Some last_row
    /\ (tags last_row <> EmptyString ->
        exists tgs,
          tm_tags t = Some tgs /\ tgs <> []
          /\ join sep tgs = tags last_row).
Proof.
  intros Ht Hsep Hne.
  destruct (emitted_scalars self i t Ht)
    as (g & r & Hg & Hr & _ & _ & _ & _ & _ & _ & Htags).
  exists g, r. split_and!; [done|done|]. intros Htg.
  rewrite (tags_value_nonempty _ _ Htg), Hsep in Htags.
  unfold split in Htags. destruct sep as [|c sep']; [done|].
  cbn [bind] in Htags. injection Htags as ->.
  destruct (split_sep_join (String c sep') (String.length (tags r)) Hne
              (tags r) EmptyString) as [Hnil Hjoin]; [lia|].
  eexists. split_and!; [done|done|]. by rewrite Hjoin, append_nil_l.
Qed.

Lemma tags_join_to_tag_string_witness :
  exists g last_row,
    groups comma_extractor !! 0 = Some g /\ last g = Some last_row
    /\ (tags last_row <> EmptyString ->
        exists tgs,
          tm_tags comma_record = Some tgs /\ tgs <> []
          /\ join "," tgs = tags last_row).
Proof.
  assert (Hne : "," <> EmptyString) by discriminate.
  exact (tags_join_to_tag_string comma_extractor 0 comma_record ","
           eq_refl eq_refl Hne).
Defined.

(** ** Forms of [where_stmt] *)

(** X8. A [where_stmt] that is false ([None], [False], [0], the empty
    string, the empty tuple) is no filter, whatever it is; a pair with
    the empty prefix is its filter kind alone; and INCLUDE_ALL with any
    prefix is no filter. *)
Theorem where_stmt_equal_forms (sql_stmt_enum : pyval)
    (kwargs : gmap string string) :
  (forall where_stmt,
     truthy where_stmt = false ->
     get_sql_statement sql_stmt_enum where_stmt kwargs
     = get_sql_statement sql_stmt_enum PyNone kwargs)
  /\ (forall k,
        get_sql_statement sql_stmt_enum
          (PyTuple [PySqlWhereStatement k; PyStr EmptyString]) kwargs
        = get_sql_statement sql_stmt_enum (PySqlWhereStatement k) kwargs)
  /\ (forall prefix,
        get_sql_statement sql_stmt_enum
          (PyTuple [PySqlWhereStatement INCLUDE_ALL; PyStr prefix]) kwargs
        = get_sql_statement sql_stmt_enum PyNone kwargs).
Proof.
  split_and!.
  - intros w Hw. unfold get_sql_statement, stmt_type_prefix. by rewrite Hw.
  - intros k. unfold get_sql_statement.
    rewrite stmt_type_prefix_pair, stmt_type_prefix_bare; done.
  - intros prefix. unfold get_sql_statement.
    rewrite stmt_type_prefix_pair, stmt_type_prefix_absent. cbn [bind fst snd].
    pose proof (where_format INCLUDE_ALL
                  (if decide (prefix = EmptyString) then EmptyString
                   else prefix +:+ ".")) as H1.
    pose proof (where_format INCLUDE_ALL EmptyString) as H2.
    cbn [__WHERE_STMT_MAPPING bind] in *. by rewrite H1, H2.
Qed.

(** X9. A tuple that is not empty and has not two items raises
    [ValueError], and a pair whose second item is [None], a bool, an
    int, a member of an enumeration or a tuple raises [TypeError],
    whatever the statement, the first item and the keyword arguments
    are: the filter is taken apart before anything is looked up. *)
Theorem malformed_where_stmt_raises (sql_stmt_enum : pyval)
    (kwargs : gmap string string) :
  (forall items,
     items <> [] -> length items <> 2 ->
     get_sql_statement sql_stmt_enum (PyTuple items) kwargs
     = Raise (ValueError "wrong number of values to unpack"))
  /\ (forall kind prefix,
        (forall s, prefix <> PyStr s) ->
        get_sql_statement sql_stmt_enum (PyTuple [kind; prefix]) kwargs
        = Raise (TypeError "unsupported operand type(s) for +=")).
Proof.
  split.
  - intros items Hne Hlen. unfold get_sql_statement, stmt_type_prefix.
    destruct items as [|a [|b [|c items]]]; simpl in *; done.
  - intros kind prefix Hno. unfold get_sql_statement, stmt_type_prefix.
    cbn [truthy length Nat.eqb negb unpack2 bind fst snd].
    destruct prefix; try reflexivity. by destruct (Hno s).
Qed.

Lemma format_agree (e : SqlStatement) (w : string)
    (kwargs kwargs' : gmap string string) :
  Forall (fun field => kwargs !! field = kwargs' !! field) (placeholders e) ->
  format (template_of e) (<[ "where_stmt" := w ]> kwargs)
  = format (template_of e) (<[ "where_stmt" := w ]> kwargs').
Proof.
  intros Hagree. unfold format. rewrite parse_template. cbn [bind].
  destruct e; cbn [segments_of placeholders render] in *.
  - apply Forall_cons in Hagree as [Hc Hagree].
    apply Forall_cons in Hagree as [Ho _].
    rewrite !lookup_insert_eq, !lookup_insert_ne by done.
    by rewrite Hc, Ho.
  - apply Forall_cons in Hagree as [Ht Hagree].
    apply Forall_cons in Hagree as [Hd Hagree].
    apply Forall_cons in Hagree as [Hx Hagree].
    apply Forall_cons in Hagree as [Hu Hagree].
    apply Forall_cons in Hagree as [Hc _].
    rewrite !lookup_insert_eq, !lookup_insert_ne by done.
    by rewrite Ht, Hd, Hx, Hu, Hc.
Qed.

(** X10. The result depends on the keyword arguments only through the
    placeholders of the template: arguments the template does not name
    are ignored. *)
Theorem unused_arguments_ignored (e : SqlStatement) (where_stmt : pyval)
    (kwargs kwargs' : gmap string string) :
  Forall (fun field => kwargs !! field = kwargs' !! field) (placeholders e) ->
  get_sql_statement (PySqlStatement e) where_stmt kwargs
  = get_sql_statement (PySqlStatement e) where_stmt kwargs'.
Proof.
  intros Hagree. unfold get_sql_statement.
  destruct (stmt_type_prefix where_stmt) as [tp|err]; [|done]. cbn [bind].
  destruct (__WHERE_STMT_MAPPING (fst tp)) as [tpl|err]; [|done]. cbn [bind].
  destruct (format tpl _) as [where_text|err]; [|done]. cbn [bind].
  rewrite SQL_STMT_MAPPING_member. cbn [bind]. by apply format_agree.
Qed.

Lemma unused_arguments_ignored_witness :
  get_sql_statement (PySqlStatement TABLE_OWNER_INIT) PyNone
    {[ "cluster" := "C"; "owners" := "O" ]}
  = get_sql_statement (PySqlStatement TABLE_OWNER_INIT) PyNone
      {[ "cluster" := "C"; "owners" := "O"; "task_id" := "7" ]}.
Proof.
  apply (unused_arguments_ignored TABLE_OWNER_INIT PyNone).
  repeat constructor; vm_compute; reflexivity.
Defined.

Lemma where_stmt_equal_forms_witness :
  get_sql_statement (PySqlStatement TABLE_OWNER_INIT) (PyTuple [])
    {[ "cluster" := "C"; "owners" := "O" ]}
  = get_sql_statement (PySqlStatement TABLE_OWNER_INIT) PyNone
      {[ "cluster" := "C"; "owners" := "O" ]}.
Proof.
  destruct (where_stmt_equal_forms (PySqlStatement TABLE_OWNER_INIT)
              {[ "cluster" := "C"; "owners" := "O" ]}) as [Hfalse _].
  apply (Hfalse (PyTuple [])). reflexivity.
Defined.

Lemma malformed_where_stmt_raises_witness :
  get_sql_statement (PySqlStatement TABLE_OWNER_INIT)
    (PyTuple [PySqlWhereStatement EXCLUDE_PDS_TABLES; PyNone])
    {[ "cluster" := "C"; "owners" := "O" ]}
  = Raise (TypeError "unsupported operand type(s) for +=").
Proof.
  destruct (malformed_where_stmt_raises (PySqlStatement TABLE_OWNER_INIT)
              {[ "cluster" := "C"; "owners" := "O" ]}) as [_ Hpair].
  apply (Hpair (PySqlWhereStatement EXCLUDE_PDS_TABLES) PyNone).
  discriminate.
Defined.

(** ** [DremioMetadataExtractor]: rows as dictionaries *)

Section DictZip.
Import DremioMetadataExtractor.

Lemma fold_insert_other (l : list (string * pyval)) (k : string) :
  forall d : gmap string pyval,
    (forall j v', l !! j <> Some (k, v')) ->
    fold_left (fun d kv => <[ fst kv := snd kv ]> d) l d !! k = d !! k.
Proof.
  induction l as [|[k0 v0] l IH]; intros d Hno; simpl; [done|].
  rewrite IH.
  - apply lookup_insert_ne. intros ->. by apply (Hno 0 v0).
  - intros j v'. apply (Hno (S j) v').
Qed.

Lemma fold_insert_last (l : list (string * pyval)) (k : string) (v : pyval) :
  forall (d : gmap string pyval) i,
    l !! i = Some (k, v) ->
    (forall j v', i < j -> l !! j <> Some (k, v')) ->
    fold_left (fun d kv => <[ fst kv := snd kv ]> d) l d !! k = Some v.
Proof.
  induction l as [|[k0 v0] l IH]; intros d i Hi Hlast; [done|].
  destruct i as [|i]; simpl in *.
  - injection Hi as -> ->. rewrite fold_insert_other.
    + apply lookup_insert_eq.
    + intros j v'. apply (Hlast (S j) v'). lia.
  - apply (IH _ i Hi). intros j v' Hj. apply (Hlast (S j) v'). lia.
Qed.

Lemma fold_insert_origin (l : list (string * pyval)) (k : string) (v : pyval) :
  forall d : gmap string pyval,
    fold_left (fun d kv => <[ fst kv := snd kv ]> d) l d !! k = Some v ->
    d !! k = Some v \/ exists i, l !! i = Some (k, v).
Proof.
  induction l as [|[k0 v0] l IH]; intros d Hk; simpl in *; [by left|].
  destruct (IH _ Hk) as [Hd|[i Hi]].
  - destruct (decide (k0 = k)) as [->|Hne].
    + rewrite lookup_insert_eq in Hd. injection Hd as ->. right. by exists 0.
    + rewrite lookup_insert_ne in Hd by done. by left.
  - right. by exists (S i).
Qed.

(** X11. In the dictionary of a row, a name has a value only if the
    value stands in the record where the name stands in the
    description; the value at a position is found under its name when
    no later position of the record has the same name, so always when
    the names are all different. Names beyond the end of the record and
    values beyond the end of the names are left out. *)
Theorem dict_zip_lookup (names : list string) (record : list pyval)
    (k : string) (v : pyval) :
  (dict_zip names record !! k = Some v ->
   exists i, names !! i = Some k /\ record !! i = Some v)
  /\ (forall i,
        names !! i = Some k -> record !! i = Some v ->
        (forall j, i < j -> j < length record -> names !! j <> Some k) ->
        dict_zip names record !! k = Some v)
  /\ (forall i,
        NoDup names -> names !! i = Some k -> record !! i = Some v ->
        dict_zip names record !! k = Some v).
Proof.
  assert (Hlast : forall i,
            names !! i = Some k -> record !! i = Some v ->
            (forall j, i < j -> j < length record -> names !! j <> Some k) ->
            dict_zip names record !! k = Some v).
  { intros i Hn Hr Hlater. unfold dict_zip.
    apply (fold_insert_last _ _ _ _ i).
    - by apply lookup_zip_Some.
    - intros j v' Hj Hz. apply lookup_zip_Some in Hz as [Hnj Hrj].
      apply (Hlater j Hj); [|done]. by apply lookup_lt_Some in Hrj. }
  split_and!.
  - intros Hk. unfold dict_zip in Hk.
    apply fold_insert_origin in Hk as [Hd|[i Hi]]; [done|].
    exists i. by apply lookup_zip_Some.
  - exact Hlast.
  - intros i Hnd Hn Hr. apply (Hlast i Hn Hr). intros j Hj _ Hnj.
    pose proof (NoDup_lookup _ _ _ _ Hnd Hn Hnj). lia.
Qed.

Lemma dict_zip_lookup_witness :
  dict_zip ["a"; "b"; "a"] [PyInt 1; PyInt 2; PyInt 3; PyInt 4] !! "a"
  = Some (PyInt 3).
Proof.
  destruct (dict_zip_lookup ["a"; "b"; "a"]
              [PyInt 1; PyInt 2; PyInt 3; PyInt 4] "a" (PyInt 3))
    as (_ & Hlast & _).
  apply (Hlast 2); [reflexivity|reflexivity|].
  intros [|[|[|[|j]]]] Hj Hlen; simpl in *; done || lia.
Defined.

End DictZip.

(** ** [DremioMetadataExtractor]: the model class and the calls *)

Lemma rsplit_dot_None (s : string) :
  DremioMetadataExtractor.rsplit_dot s = None <-> has_dot s = false.
Proof.
  induction s as [|c s IH]; simpl; [done|].
  destruct (DremioMetadataExtractor.rsplit_dot s) as [ab|].
  - destruct (decide (c = "."%char)); [done|].
    split; [done|]. intros H. by apply IH in H.
  - destruct (decide (c = "."%char)); [done|]. split; [|done].
    intros _. by apply IH.
Qed.

Lemma rsplit_dot_Some (s a b : string) :
  DremioMetadataExtractor.rsplit_dot s = Some (a, b) ->
  s = a +:+ "." +:+ b /\ has_dot b = false.
Proof.
  revert a. induction s as [|c s IH]; intros a; simpl; [done|].
  destruct (DremioMetadataExtractor.rsplit_dot s) as [[a' b']|] eqn:Hs.
  - intros [= <- <-]. destruct (IH a' eq_refl) as [-> Hb].
    by rewrite append_cons.
  - destruct (decide (c = "."%char)) as [->|]; [|done].
    intros [= <- <-]. split; [done|]. by apply rsplit_dot_None.
Qed.

Section ModelFacts.
Import DremioMetadataExtractor.
Context {Model PyModule : Type}.
Variable import_module : string -> result PyModule.
Variable getattr :
  PyModule -> string -> result (gmap string pyval -> result Model).

(** X12. [__get_model_class] returns [None] without a name or with the
    empty name; raises [ValueError] for a name without a dot, whatever
    can be imported; and for a name with a dot it imports the text
    before the last dot and takes from it the attribute named after
    that dot, which has no dot in it. *)
Theorem get_model_class_by_name :
  __get_model_class Model PyModule import_module getattr None = Ok None
  /\ __get_model_class Model PyModule import_module getattr
       (Some EmptyString) = Ok None
  /\ (forall nm,
        nm <> EmptyString -> has_dot nm = false ->
        __get_model_class Model PyModule import_module getattr (Some nm)
        = Raise (ValueError "not enough values to unpack"))
  /\ (forall nm,
        has_dot nm = true ->
        exists module_name class_name,
          nm = module_name +:+ "." +:+ class_name
          /\ has_dot class_name = false
          /\ __get_model_class Model PyModule import_module getattr (Some nm)
             = bind (import_module module_name) (fun mod_ =>
               bind (getattr mod_ class_name) (fun cls => Ok (Some cls)))).
Proof.
  split_and!; [done|done| |].
  - intros nm Hne Hdot. unfold __get_model_class, rsplit1.
    apply truthy_str in Hne. rewrite Hne.
    apply rsplit_dot_None in Hdot. by rewrite Hdot.
  - intros nm Hdot. unfold __get_model_class, rsplit1.
    destruct (rsplit_dot nm) as [[a b]|] eqn:Hs.
    + destruct (rsplit_dot_Some _ _ _ Hs) as [Hnm Hb].
      exists a, b. split_and!; [done|done|].
      assert (Hne : nm <> EmptyString) by (by destruct nm).
      apply truthy_str in Hne. by rewrite Hne.
    + apply rsplit_dot_None in Hs. congruence.
Qed.

Lemma generic_iter_extract (self : Extractor Model) :
  generic_iter (snd (extract Model self))
  = snd (next Model (generic_iter self)).
Proof. done. Qed.

Lemma generic_extract_unfold (self : Extractor Model) :
  fst (extract Model self)
  = match fst (next Model (generic_iter self)) with
    | Yielded _ x => Ok (Some x)
    | StopIteration _ => Ok None
    | Raised _ e => Raise e
    end.
Proof. done. Qed.

Lemma generic_exhausted (m : nat) :
  forall self : Extractor Model,
    generic_iter self = [] -> fst (extract Model (after Model m self)) = Ok None.
Proof.
  induction m as [|m IH]; intros self Hempty.
  - change (after Model 0 self) with self.
    by rewrite generic_extract_unfold, Hempty.
  - change (after Model (S m) self)
      with (after Model m (snd (extract Model self))).
    apply IH. by rewrite generic_iter_extract, Hempty.
Qed.

(** The calls of [extract()] over the records still to be read. *)
Lemma generic_extract_at (i : nat) :
  forall (self : Extractor Model) (records : list (list pyval)),
    generic_iter self
    = for_records Model (description (__dremio_odbc_cursor Model self))
        (__model_class Model self) records ->
    (forall j record,
       j < i -> records !! j = Some record ->
       is_Ok (item_of (description (__dremio_odbc_cursor Model self))
                (__model_class Model self) record)) ->
    fst (extract Model (after Model i self))
    = match records !! i with
      | Some record =>
          bind (item_of (description (__dremio_odbc_cursor Model self))
                  (__model_class Model self) record)
               (fun it => Ok (Some it))
      | None => Ok None
      end
    /\ (forall record e m,
          records !! i = Some record ->
          item_of (description (__dremio_odbc_cursor Model self))
            (__model_class Model self) record = Raise e ->
          i < m -> fst (extract Model (after Model m self)) = Ok None).
Proof.
  induction i as [|i IH]; intros self records Hiter Hbefore.
  - change (after Model 0 self) with self.
    rewrite generic_extract_unfold, Hiter.
    destruct records as [|record rest]; [done|]. simpl.
    unfold item_of. destruct (__model_class Model self) as [make|].
    + destruct (make _) as [x|e] eqn:Hmake; simpl.
      * split; [done|]. intros record' e m [= <-]. by rewrite Hmake.
      * split; [done|]. intros record' e' m _ _ Hm.
        destruct m as [|m]; [lia|].
        change (after Model (S m) self)
          with (after Model m (snd (extract Model self))).
        apply generic_exhausted.
        rewrite generic_iter_extract, Hiter. simpl.
        unfold class in *. by rewrite Hmake.
    + simpl. split; [done|]. by intros record' e m [= <-].
  - change (after Model (S i) self)
      with (after Model i (snd (extract Model self))).
    destruct records as [|record rest].
    + split; [|done]. apply generic_exhausted.
      by rewrite generic_iter_extract, Hiter.
    + pose proof (Hbefore 0 record (Nat.lt_0_succ i) eq_refl) as Hok.
      assert (Hiter' :
                generic_iter (snd (extract Model self))
                = for_records Model
                    (description (__dremio_odbc_cursor Model self))
                    (__model_class Model self) rest).
      { rewrite generic_iter_extract, Hiter. simpl. unfold item_of in Hok.
        destruct (__model_class Model self) as [make|]; [|done].
        unfold class in *. by destruct (make _). }
      destruct (IH (snd (extract Model self)) rest Hiter') as [Hat Hraise].
      { intros j record' Hj. apply (Hbefore (S j) record'). lia. }
      split; [exact Hat|].
      intros record' e m Hrec He Hm. destruct m as [|m]; [lia|].
      change (after Model (S m) self)
        with (after Model m (snd (extract Model self))).
      apply (Hraise record' e m Hrec He). lia.
Qed.

(** X13. From a new extractor, while every earlier record gave an item,
    the call of [extract()] with number [i] returns the item of the
    record with number [i] (its dictionary, or the instance the model
    class makes of it, or the exception the class raises) and [None]
    when the records are used up; after a record of which the class
    made no instance every call returns [None], so the records after it
    are never returned. *)
Theorem generic_extract_returns (self : Extractor Model) (i : nat) :
  _extract_iter Model self = None ->
  (forall j record,
     j < i ->
     execute (__dremio_odbc_cursor Model self) (__sql_stmt Model self) !! j
     = Some record ->
     is_Ok (item_of (description (__dremio_odbc_cursor Model self))
              (__model_class Model self) record)) ->
  fst (extract Model (after Model i self))
  = match execute (__dremio_odbc_cursor Model self) (__sql_stmt Model self)
          !! i with
    | Some record =>
        bind (item_of (description (__dremio_odbc_cursor Model self))
                (__model_class Model self) record)
             (fun it => Ok (Some it))
    | None => Ok None
    end
  /\ (forall record e m,
        execute (__dremio_odbc_cursor Model self) (__sql_stmt Model self) !! i
        = Some record ->
        item_of (description (__dremio_odbc_cursor Model self))
          (__model_class Model self) record = Raise e ->
        i < m -> fst (extract Model (after Model m self)) = Ok None).
Proof.
  intros Hnew Hbefore. apply generic_extract_at; [|done].
  unfold generic_iter. by rewrite Hnew.
Qed.

End ModelFacts.

Lemma generic_extract_returns_witness :
  fst (DremioMetadataExtractor.extract Empty_set
         (DremioMetadataExtractor.after Empty_set 1
            (DremioMetadataExtractor.mkExtractor Empty_set (Some "SELECT 1")
               None
               (DremioMetadataExtractor.mkCursor ["a"; "b"]
                  (fun _ => [[PyInt 1; PyInt 2]; [PyInt 3; PyInt 4]]))
               None)))
  = Ok (Some (DremioMetadataExtractor.RawRow Empty_set
                (DremioMetadataExtractor.dict_zip ["a"; "b"]
                   [PyInt 3; PyInt 4]))).
Proof.
  destruct (generic_extract_returns
              (DremioMetadataExtractor.mkExtractor Empty_set (Some "SELECT 1")
                 None
                 (DremioMetadataExtractor.mkCursor ["a"; "b"]
                    (fun _ => [[PyInt 1; PyInt 2]; [PyInt 3; PyInt 4]]))
                 None) 1 eq_refl) as [Hat _].
  - intros j record Hj Hrec. exact I.
  - exact Hat.
Defined.

Lemma get_model_class_by_name_witness :
  exists module_name class_name,
    "databuilder.models.table_owner.TableOwner"
    = module_name +:+ "." +:+ class_name
    /\ has_dot class_name = false
    /\ DremioMetadataExtractor.__get_model_class Empty_set unit
         (fun _ => Ok tt) (fun _ _ => Ok (fun _ => Raise (TypeError "no fields")))
         (Some "databuilder.models.table_owner.TableOwner")
       = bind (Ok tt) (fun mod_ =>
         bind (Ok (fun _ : gmap string pyval =>
                     @Raise Empty_set (TypeError "no fields")))
              (fun cls => Ok (Some cls))).
Proof.
  destruct (get_model_class_by_name (Model := Empty_set) (PyModule := unit)
              (fun _ => Ok tt)
              (fun _ _ => Ok (fun _ => Raise (TypeError "no fields"))))
    as (_ & _ & _ & Hdot).
  apply (Hdot "databuilder.models.table_owner.TableOwner"). reflexivity.
Defined.

(** ** Bounds on what is emitted *)

(** X14. The extractor emits at most one record per group and so at
    most one per row; without rows it emits nothing and the first call
    of [extract()] returns [None]. *)
Theorem emitted_at_most_rows (self : Extractor) :
  length (emitted self) <= length (groups self)
  /\ length (groups self) <= length (_get_raw_extract_iter self)
  /\ (_get_raw_extract_iter self = [] ->
      emitted self = []
      /\ (_extract_iter self = None -> fst (extract self) = Ok None)).
Proof.
  assert (Hle : length (emitted self) <= length (groups self)).
  { pose proof (Forall2_length _ _ _ (emitted_prefix self)) as Hlen.
    rewrite length_take in Hlen. lia. }
  split_and!; [done|apply groupby_length|].
  intros Hrows.
  assert (Hg : groups self = []) by (unfold groups; by rewrite Hrows).
  rewrite Hg in Hle. split; [apply nil_length_inv; simpl in Hle; lia|].
  intros Hnew. apply extract_exhausted. unfold current_iter. rewrite Hnew.
  unfold _get_extract_iter. fold (groups self). by rewrite Hg.
Qed.

Lemma emitted_at_most_rows_witness :
  emitted (extractor_over (Some ",") []) = []
  /\ (_extract_iter (extractor_over (Some ",") []) = None ->
      fst (extract (extractor_over (Some ",") [])) = Ok None).
Proof.
  destruct (emitted_at_most_rows (extractor_over (Some ",") []))
    as (_ & _ & Hempty).
  apply Hempty. reflexivity.
Defined.

(** X15. Whatever the separator, the columns of the emitted records,
    one record after the other, are the columns of the first rows, in
    the order of the rows: nothing is added, doubled or moved, also
    when the extraction stops early. *)
Theorem columns_are_first_rows (self : Extractor) :
  exists n,
    concat (map tm_columns (emitted self))
    = map column_of (take n (_get_raw_extract_iter self)).
Proof.
  pose proof (built_from_concat _ _ _ (emitted_prefix self)) as Hcols.
  destruct (groupby_maximal_runs _get_table_key (_get_raw_extract_iter self))
    as (Hconcat & _).
  fold (groups self) in Hconcat.
  exists (length (concat (take (length (emitted self)) (groups self)))).
  rewrite Hcols. f_equal.
  assert (Hrows : _get_raw_extract_iter self
                  = concat (take (length (emitted self)) (groups self))
                    ++ concat (drop (length (emitted self)) (groups self))).
  { by rewrite <- concat_app, take_drop. }
  rewrite Hrows. by rewrite take_app_length.
Qed.
